(** * PythonToEXE: the build / environment orchestration core

    A shallow embedding of

      - [app/utils/shell.py]        (the process runner),
      - [app/core/builder.py]       (command builder and build worker),
      - [app/core/venv_manager.py]  (the venv worker and the manager's queries),
      - [app/core/plugin_loader.py] (plugin registry and execution),

    together with the properties stated about them.

    Conventions of the embedding.

      - A Python [str] is a [string]; its characters are the code points
        below 256.  [str.strip], [str.rstrip], [str.split] and
        [str.replace] are written out below.
      - Code that may raise lives in the [result] monad; [try ... except
        Exception] is [try_except].
      - Qt signals are recorded, in emission order, in the state the
        worker threads through its run.
      - The operating system is a record of oracles (which paths exist,
        what [Popen] and [subprocess.run] do with a command); the two
        readings of the clock are parameters of a build.  A process
        hands out the lines that are read from its pipe and then ends
        the stream, or raises as a read does on a byte it cannot
        decode.  The environment code works on path objects and asks a
        disk whose every query answers or raises.
      - A second thread acts on a worker only through the flag it sets;
        it is given by the read of the flag at which that shows.
      - Calls to the logger only write to the log sink; they are left out. *)

From Stdlib Require Import String Ascii List Bool Arith ZArith Lia.
From Stdlib Require Import DecimalString.
Import ListNotations.

Local Open Scope string_scope.
Local Open Scope list_scope.

(* ------------------------------------------------------------------ *)
(** ** Python strings *)

Module PyStr.

(** [str.isspace] on one character, for the code points below 256. *)
Definition is_space (c : ascii) : bool :=
  let n := nat_of_ascii c in
  (((9 <=? n) && (n <=? 13)) || ((28 <=? n) && (n <=? 32))
   || (n =? 133) || (n =? 160))%nat.

(** Truth value of a string: [bool(s)]. *)
Definition truthy (s : string) : bool :=
  match s with
  | EmptyString => false
  | String _ _ => true
  end.

(** [s.lstrip()] *)
Fixpoint lstrip (s : string) : string :=
  match s with
  | EmptyString => EmptyString
  | String c r => if is_space c then lstrip r else s
  end.

(** [s.rstrip()] *)
Fixpoint rstrip (s : string) : string :=
  match s with
  | EmptyString => EmptyString
  | String c r =>
      match rstrip r with
      | EmptyString => if is_space c then EmptyString else String c EmptyString
      | r' => String c r'
      end
  end.

(** [s.strip()] *)
Definition strip (s : string) : string := rstrip (lstrip s).

(** [s.replace(old, new)] for a one-character [old]: every occurrence
    is replaced. *)
Fixpoint replace (old : ascii) (new : string) (s : string) : string :=
  match s with
  | EmptyString => EmptyString
  | String c r =>
      if Ascii.eqb c old then new ++ replace old new r
      else String c (replace old new r)
  end.

(** [s.split()]: the maximal runs of non-space characters, in order.
    [cur] is the token being read. *)
Fixpoint split_from (cur : string) (s : string) : list string :=
  match s with
  | EmptyString => if truthy cur then [cur] else []
  | String c r =>
      if is_space c
      then (if truthy cur then cur :: split_from EmptyString r
            else split_from EmptyString r)
      else split_from (cur ++ String c EmptyString) r
  end.

Definition split (s : string) : list string := split_from EmptyString s.

(** [sep.join(l)] *)
Definition join (sep : string) (l : list string) : string :=
  String.concat sep l.

(** Does the character occur in the string? *)
Fixpoint mem (c : ascii) (s : string) : bool :=
  match s with
  | EmptyString => false
  | String d r => Ascii.eqb d c || mem c r
  end.

(** Some character of the string is not white space. *)
Fixpoint has_nonspace (s : string) : bool :=
  match s with
  | EmptyString => false
  | String c r => negb (is_space c) || has_nonspace r
  end.

(** [str(n)] of an integer. *)
Definition of_int (n : Z) : string := NilZero.string_of_int (Z.to_int n).

End PyStr.

(* ------------------------------------------------------------------ *)
(** ** Exceptions *)

(** The exceptions the modelled code raises or receives.  All of them
    derive from [Exception]. *)
Inductive exn : Type :=
| ValueError (msg : string)
| RuntimeError (msg : string)
| OSError (msg : string)
| TimeoutExpired (partial_stdout : option string)
| OtherException (msg : string).

(** [str(e)].  The text of a [TimeoutExpired] is never used by the code. *)
Definition str_exn (e : exn) : string :=
  match e with
  | ValueError m | RuntimeError m | OSError m | OtherException m => m
  | TimeoutExpired _ => "Command timed out"
  end.

Inductive result (A : Type) : Type :=
| Ok (a : A)
| Raise (e : exn).

Arguments Ok {A} a.
Arguments Raise {A} e.

Definition bind {A B} (m : result A) (k : A -> result B) : result B :=
  match m with
  | Ok a => k a
  | Raise e => Raise e
  end.

(** [try: m  except Exception as e: h e] *)
Definition try_except {A} (m : result A) (h : exn -> result A) : result A :=
  match m with
  | Ok a => Ok a
  | Raise e => h e
  end.

(* ------------------------------------------------------------------ *)
(** ** The host platform *)

(** [sys.platform == 'win32'] *)
Definition is_win32 (sys_platform : string) : bool :=
  String.eqb sys_platform "win32".

(** ** [app/core/config_manager.py]: [BuildConfig] *)

Record BuildConfig : Type := mkBuildConfig {
  script_path : string;
  requirements_path : string;
  output_dir : string;
  icon_path : string;
  app_name : string;
  one_file : bool;
  console_mode : bool;
  clean_build : bool;
  hidden_imports : list string;
  exclude_modules : list string;
  data_files : list string;
  additional_args : string
}.

(** The dataclass defaults. *)
Definition default_BuildConfig : BuildConfig :=
  {| script_path := ""; requirements_path := ""; output_dir := "";
     icon_path := ""; app_name := "";
     one_file := true; console_mode := true; clean_build := true;
     hidden_imports := []; exclude_modules := []; data_files := [];
     additional_args := "" |}.

(* ------------------------------------------------------------------ *)
(** ** [app/core/builder.py]: [BuildWorker._build_command] *)

Module CommandBuilder.

Section Build.

(** [sys.platform], and which paths exist on disk
    ([Path(p).exists()]). *)
Variable sys_platform : string.
Variable path_exists : string -> bool.

(** [self.python_path] *)
Variable python_path : string.

Definition path_sep : string :=
  if is_win32 sys_platform then ";" else ":".

(** One loop of the shape
    [for x in xs: if x.strip(): cmd.extend(\[flag, x.strip()\])]. *)
Fixpoint flag_per_entry (flag : string) (xs : list string) : list string :=
  match xs with
  | [] => []
  | x :: r =>
      if PyStr.truthy (PyStr.strip x)
      then flag :: PyStr.strip x :: flag_per_entry flag r
      else flag_per_entry flag r
  end.

(** [data_file.strip().replace(';', path_sep)] *)
Definition normalized (data_file : string) : string :=
  PyStr.replace ";"%char path_sep (PyStr.strip data_file).

(** The loop over [self.config.data_files]. *)
Fixpoint add_data_args (xs : list string) : list string :=
  match xs with
  | [] => []
  | data_file :: r =>
      if PyStr.truthy (PyStr.strip data_file)
      then "--add-data" :: normalized data_file :: add_data_args r
      else add_data_args r
  end.

Definition _build_command (config : BuildConfig) : result (list string) :=
  let cmd := [python_path; "-m"; "PyInstaller"] in
  if negb (PyStr.truthy (script_path config))
  then Raise (ValueError "Script path is required")
  else
    let cmd := cmd ++ (if one_file config then ["--onefile"] else ["--onedir"]) in
    let cmd := cmd ++ (if negb (console_mode config) then ["--noconsole"] else []) in
    let cmd := cmd ++ (if clean_build config then ["--clean"] else []) in
    let cmd := cmd ++ ["--noconfirm"] in
    let cmd := cmd ++ (if PyStr.truthy (output_dir config)
                       then ["--distpath"; output_dir config] else []) in
    let cmd := cmd ++ (if PyStr.truthy (app_name config)
                       then ["--name"; app_name config] else []) in
    let cmd := cmd ++ (if PyStr.truthy (icon_path config)
                          && path_exists (icon_path config)
                       then ["--icon"; icon_path config] else []) in
    let cmd := cmd ++ flag_per_entry "--hidden-import" (hidden_imports config) in
    let cmd := cmd ++ flag_per_entry "--exclude-module" (exclude_modules config) in
    let cmd := cmd ++ add_data_args (data_files config) in
    let cmd := cmd ++ (if PyStr.truthy (additional_args config)
                       then PyStr.split (additional_args config) else []) in
    let cmd := cmd ++ [script_path config] in
    Ok cmd.

(** Every value the caller supplies that can reach the argument
    vector: the interpreter path, the output directory, the name,
    the icon, the trimmed hidden imports and excluded modules, the
    rewritten data-file entries, the tokens of the extra-argument
    string and the script path. *)
Definition caller_values (config : BuildConfig) : list string :=
  python_path :: output_dir config :: app_name config :: icon_path config
    :: map PyStr.strip (hidden_imports config)
    ++ map PyStr.strip (exclude_modules config)
    ++ map normalized (data_files config)
    ++ PyStr.split (additional_args config)
    ++ [script_path config].

End Build.

End CommandBuilder.

(* ------------------------------------------------------------------ *)
(** ** The host: what the operating system answers *)

(** A process started by [Popen] as the read loop sees it.  The pipe is
    opened as text with strict decoding: [readline] returns the lines
    of [pipe_text] one after the other (standard error is redirected
    into standard output, line ends are already translated to the
    newline character); when they are used up it either reports the
    end of the stream ([pipe_fault = None]) or raises, as it does on a
    byte it cannot decode ([pipe_fault = Some e]).  [returncode] is the
    exit status [wait] collects. *)
Record Process : Type := mkProcess {
  pipe_text : string;
  pipe_fault : option exn;
  returncode : Z
}.

(** What [subprocess.run] hands back when the command completes. *)
Record CompletedProcess : Type := mkCompleted {
  cp_returncode : Z;
  cp_stdout : string;
  cp_stderr : string
}.

Record Host : Type := mkHost {
  (** [sys.platform] *)
  sys_platform : string;
  (** [sys.executable] *)
  sys_executable : string;
  (** [Path(p).exists()] *)
  path_exists : string -> bool;
  (** [Path(p).parent], as a string *)
  path_parent : string -> string;
  (** [subprocess.Popen(command, cwd=cwd, ...)]: a process, or the
      exception raised when the command cannot be started *)
  Popen : list string -> option string -> result Process;
  (** [subprocess.run(command, cwd=cwd, timeout=timeout, ...)] *)
  subprocess_run : list string -> option string -> option Z
                   -> result CompletedProcess
}.

(** State that survives an exception: the commands handed to [Popen] so
    far, and whatever the caller of the runner keeps ([user]). *)
Record State (S : Type) : Type := mkState {
  popen_calls : list (list string);
  user : S
}.

Arguments mkState {S} popen_calls user.
Arguments popen_calls {S} s.
Arguments user {S} s.

Definition initial_state {S} (u : S) : State S :=
  {| popen_calls := []; user := u |}.

(** A computation that may raise and whose effects on the state stay
    when it does. *)
Definition M (S A : Type) : Type := State S -> result A * State S.

Definition ret {S A} (a : A) : M S A := fun st => (Ok a, st).

Definition raise {S A} (e : exn) : M S A := fun st => (Raise e, st).

Definition bindM {S A B} (m : M S A) (k : A -> M S B) : M S B :=
  fun st =>
    match m st with
    | (Ok a, st') => k a st'
    | (Raise e, st') => (Raise e, st')
    end.

(** [try: m  except Exception as e: h e] *)
Definition try_exceptM {S A} (m : M S A) (h : exn -> M S A) : M S A :=
  fun st =>
    match m st with
    | (Ok a, st') => (Ok a, st')
    | (Raise e, st') => h e st'
    end.

(** The caller's part of the state. *)
Definition get_user {S} : M S S := fun st => (Ok (user st), st).

(** An update of the caller's part of the state. *)
Definition modify_user {S} (f : S -> S) : M S unit :=
  fun st => (Ok tt, {| popen_calls := popen_calls st; user := f (user st) |}).

Declare Scope M_scope.
Delimit Scope M_scope with M.
Notation "x <- m ;; k" := (bindM m (fun x => k))
  (at level 61, m at next level, right associativity) : M_scope.
Notation "m ;;; k" := (bindM m (fun _ => k))
  (at level 61, right associativity) : M_scope.

(* ------------------------------------------------------------------ *)
(** ** [app/utils/shell.py] *)

Module Shell.

Record ProcessResult : Type := mkProcessResult {
  return_code : Z;
  stdout : string;
  stderr : string;
  success : bool
}.

(** The text of [{timeout}] in an f-string. *)
Definition fmt_timeout (timeout : option Z) : string :=
  match timeout with
  | None => "None"
  | Some n => PyStr.of_int n
  end.

(** [e.stdout or ""] *)
Definition or_empty (o : option string) : string :=
  match o with
  | Some s => s
  | None => ""
  end.

Definition run_command (host : Host) (command : list string)
    (cwd : option string) (timeout : option Z) : result ProcessResult :=
  try_except
    (bind (subprocess_run host command cwd timeout) (fun r =>
       Ok {| return_code := cp_returncode r;
             stdout := cp_stdout r;
             stderr := cp_stderr r;
             success := Z.eqb (cp_returncode r) 0 |}))
    (fun e =>
       match e with
       | TimeoutExpired out =>
           Ok {| return_code := -1;
                 stdout := or_empty out;
                 stderr := "Command timed out after "
                           ++ fmt_timeout timeout ++ " seconds";
                 success := false |}
       | _ =>
           Ok {| return_code := -1;
                 stdout := "";
                 stderr := str_exn e;
                 success := false |}
       end).

(** [f.readline()] on what is left of the text: the line with its
    newline (or the unterminated rest), and what remains.  At the end
    of the text the line is empty. *)
Fixpoint readline (s : string) : string * string :=
  match s with
  | EmptyString => (EmptyString, EmptyString)
  | String c r =>
      if Ascii.eqb c "010"%char then (String c EmptyString, r)
      else let (line, rest) := readline r in (String c line, rest)
  end.

(** [iter(f.readline, '')]: the lines read until [readline] returns
    the empty string.  [fuel] bounds the number of reads. *)
Fixpoint iter_readline (fuel : nat) (s : string) : list string :=
  match fuel with
  | O => []
  | S fuel' =>
      let (line, rest) := readline s in
      if PyStr.truthy line then line :: iter_readline fuel' rest else []
  end.

(** Every read but the last takes at least one character, so one read
    more than the text has characters is enough. *)
Definition lines_of (s : string) : list string :=
  iter_readline (S (String.length s)) s.

Section Stream.

Variable S : Type.

(** The body of the [for] loop over the lines. *)
Fixpoint stream_loop (output_callback : string -> M S unit)
    (lines : list string) (stdout_lines : list string)
    : M S (list string) :=
  match lines with
  | [] => ret stdout_lines
  | line :: rest =>
      if PyStr.truthy line
      then bindM (output_callback (PyStr.rstrip line)) (fun _ =>
             stream_loop output_callback rest (stdout_lines ++ [line]))
      else stream_loop output_callback rest stdout_lines
  end.

(** [subprocess.Popen(...)], noting the call. *)
Definition spawn (host : Host) (command : list string)
    (cwd : option string) : M S Process :=
  fun st =>
    (Popen host command cwd,
     {| popen_calls := popen_calls st ++ [command]; user := user st |}).

(** The read that follows the last line: the empty string that ends
    the loop, or the exception [readline] raises. *)
Definition end_of_pipe (process : Process) (stdout_lines : list string)
    : M S (list string) :=
  match pipe_fault process with
  | None => ret stdout_lines
  | Some e => raise e
  end.

Definition run_command_stream (host : Host) (command : list string)
    (output_callback : string -> M S unit) (cwd : option string)
    : M S ProcessResult :=
  try_exceptM
    (process <- spawn host command cwd ;;
     stdout_lines <-
       stream_loop output_callback (lines_of (pipe_text process)) [] ;;
     stdout_lines <- end_of_pipe process stdout_lines ;;
     ret {| return_code := returncode process;
            stdout := PyStr.join "" stdout_lines;
            stderr := "";
            success := Z.eqb (returncode process) 0 |})%M
    (fun e =>
       ret {| return_code := -1;
              stdout := "";
              stderr := str_exn e;
              success := false |}).

End Stream.

Arguments stream_loop {S} output_callback lines stdout_lines.
Arguments spawn {S} host command cwd.
Arguments end_of_pipe {S} process stdout_lines.
Arguments run_command_stream {S} host command output_callback cwd.

(** What a run returns once its process has started and the consumer
    has raised on no line: the process's exit code and text, or the
    failure made from the exception of the read that failed. *)
Definition outcome (process : Process) : ProcessResult :=
  match pipe_fault process with
  | None =>
      {| return_code := returncode process;
         stdout := pipe_text process;
         stderr := "";
         success := Z.eqb (returncode process) 0 |}
  | Some e =>
      {| return_code := -1; stdout := ""; stderr := str_exn e;
         success := false |}
  end.

(** The consumer called on each of [args] in turn, none of the calls
    raising: the state it leaves. *)
Definition deliver {S} (output_callback : string -> M S unit)
    (args : list string) (st : State S) : State S :=
  fold_left (fun st a => snd (output_callback a st)) args st.

(** The consumer raises on no argument and in no state. *)
Definition never_raises {S} (output_callback : string -> M S unit) : Prop :=
  forall a st, fst (output_callback a st) = Ok tt.

(** The state once [Popen] has been called with [command]. *)
Definition noting {S} (command : list string) (st : State S) : State S :=
  {| popen_calls := popen_calls st ++ [command]; user := user st |}.

(** A consumer that raises whatever it is called with. *)
Definition failing_consumer (line : string) : M unit unit :=
  raise (RuntimeError "consumer failed").

(** A consumer that only notes what it is called with. *)
Definition recorder (line : string) : M (list string) unit :=
  modify_user (fun seen => seen ++ [line]).

(** The text on the pipe of a process that prints the lines [ls], each
    followed by a newline. *)
Definition emitted_text (ls : list string) : string :=
  PyStr.join "" (map (fun l => (l ++ String "010"%char "")%string) ls).

(** A line without the newline that ends it. *)
Fixpoint without_newline (line : string) : string :=
  match line with
  | EmptyString => EmptyString
  | String c EmptyString =>
      if Ascii.eqb c "010"%char then EmptyString else line
  | String c r => String c (without_newline r)
  end.

End Shell.

(* ------------------------------------------------------------------ *)
(** ** [app/core/builder.py]: [BuildWorker] *)

Module Builder.

Inductive BuildStatus : Type :=
| IDLE | RUNNING | SUCCESS | FAILED | CANCELLED.

(** [pathlib.Path(arg)], kept as the argument it is made from. *)
Inductive PurePath : Type := Path (arg : string).

(** [build_time] is the difference of two clock readings; the clock is
    read in whole ticks here. *)
Record BuildResult : Type := mkBuildResult {
  status : BuildStatus;
  output_path : option PurePath;
  error_message : string;
  build_time : Z
}.

(** The signals of the worker, as emitted. *)
Inductive Signal : Type :=
| output_line (line : string)
| build_finished (r : BuildResult)
| status_changed (message : string).

(** The worker object.  [flag_reads] counts how often [run] has looked
    at [_cancelled]; it is there for the controlling thread below. *)
Record BuildWorker : Type := mkBuildWorker {
  config : BuildConfig;
  python_path : string;
  _cancelled : bool;
  flag_reads : nat;
  emitted : list Signal
}.

(** [BuildWorker.__init__]:
    [python_path or get_python_executable()], flag down. *)
Definition init (host : Host) (cfg : BuildConfig)
    (py : option string) : BuildWorker :=
  {| config := cfg;
     python_path := match py with
                    | Some p => if PyStr.truthy p then p else sys_executable host
                    | None => sys_executable host
                    end;
     _cancelled := false;
     flag_reads := 0;
     emitted := [] |}.

(** [BuildWorker.cancel] *)
Definition cancel (self : BuildWorker) : BuildWorker :=
  {| config := config self; python_path := python_path self;
     _cancelled := true;
     flag_reads := flag_reads self; emitted := emitted self |}.

Definition emit (sig : Signal) : M BuildWorker unit :=
  modify_user (fun self =>
    {| config := config self; python_path := python_path self;
       _cancelled := _cancelled self; flag_reads := flag_reads self;
       emitted := emitted self ++ [sig] |}).

(** The [build_finished] signals among the emitted ones. *)
Fixpoint finished (sigs : list Signal) : list BuildResult :=
  match sigs with
  | [] => []
  | build_finished r :: rest => r :: finished rest
  | _ :: rest => finished rest
  end.

Section Run.

Variable host : Host.

(** The controlling thread calls [cancel()] at a moment of its own
    choosing.  All [run] can tell is which of its reads of the flag
    come after that call: [cancel_after = Some k] says the call
    lands once [run] has read the flag [k] times ([Some 0]: before
    any read, so before any output), [None] that nobody cancels. *)
Variable cancel_after : option nat.

(** The two readings of [time.time()]: on entry, and when the result
    is built. *)
Variable start_time finish_time : Z.

(** Has the call landed by the time of the read numbered [n]
    (counting from 0)? *)
Definition cancel_observed (n : nat) : bool :=
  match cancel_after with
  | Some k => (k <=? n)%nat
  | None => false
  end.

Definition other_thread (self : BuildWorker) : BuildWorker :=
  match cancel_after with
  | Some k => if (k <=? flag_reads self)%nat then cancel self else self
  | None => self
  end.

(** Reading [self._cancelled]. *)
Definition read_cancelled : M BuildWorker bool :=
  fun st =>
    let self := other_thread (user st) in
    (Ok (_cancelled self),
     {| popen_calls := popen_calls st;
        user := {| config := config self; python_path := python_path self;
                   _cancelled := _cancelled self;
                   flag_reads := S (flag_reads self);
                   emitted := emitted self |} |}).

Definition output_callback (line : string) : M BuildWorker unit :=
  (c <- read_cancelled ;;
   if negb c then emit (output_line line) else ret tt)%M.

Definition _build_command : M BuildWorker (list string) :=
  fun st =>
    (CommandBuilder._build_command (sys_platform host) (path_exists host)
       (python_path (user st)) (config (user st)), st).

(** The [cwd] of the build process. *)
Definition working_dir (cfg : BuildConfig) : option string :=
  if PyStr.truthy (script_path cfg)
  then Some (path_parent host (script_path cfg))
  else None.

(** How many lines [run] drains from the process started with
    [command]: one call of the consumer, so one read of the flag,
    per line; none when the process does not start. *)
Definition lines_drained (cfg : BuildConfig) (command : list string)
    : nat :=
  match Popen host command (working_dir cfg) with
  | Ok process => length (Shell.lines_of (pipe_text process))
  | Raise _ => 0
  end.

Definition run : M BuildWorker unit :=
  try_exceptM
    (emit (status_changed "Preparing build...") ;;;
     cmd <- _build_command ;;
     emit (output_line (">>> " ++ PyStr.join " " cmd
                        ++ String "010"%char "")) ;;;
     emit (status_changed "Building...") ;;;
     self <- get_user ;;
     result <- Shell.run_command_stream host cmd output_callback
                 (working_dir (config self)) ;;
     let build_time := (finish_time - start_time)%Z in
     c <- read_cancelled ;;
     if c then
       emit (build_finished
               {| status := CANCELLED; output_path := None;
                  error_message := ""; build_time := build_time |})
     else if Shell.success result then
       emit (build_finished
               {| status := SUCCESS;
                  output_path := if PyStr.truthy (output_dir (config self))
                                 then Some (Path (output_dir (config self)))
                                 else None;
                  error_message := ""; build_time := build_time |})
     else
       emit (build_finished
               {| status := FAILED; output_path := None;
                  error_message := if PyStr.truthy (Shell.stderr result)
                                   then Shell.stderr result
                                   else "Build failed";
                  build_time := build_time |}))%M
    (fun e =>
       let build_time := (finish_time - start_time)%Z in
       emit (build_finished
               {| status := FAILED; output_path := None;
                  error_message := str_exn e;
                  build_time := build_time |})).

(** A whole build: a fresh worker, then [run]. *)
Definition build (cfg : BuildConfig) (py : option string)
    : State BuildWorker :=
  snd (run (initial_state (init host cfg py))).

(** What stays fixed while lines are relayed: the worker's
    configuration and interpreter, the processes started, the
    results emitted; [n] flag reads have been made, and the flag is
    up only if the call of [cancel()] has landed. *)
Record tracks (cfg : BuildConfig) (py : string)
    (calls : list (list string)) (fin : list BuildResult) (n : nat)
    (st : State BuildWorker) : Prop := {
  tr_config : config (user st) = cfg;
  tr_python : python_path (user st) = py;
  tr_calls : popen_calls st = calls;
  tr_finished : finished (emitted (user st)) = fin;
  tr_reads : flag_reads (user st) = n;
  tr_flag : _cancelled (user st) = true ->
            cancel_observed n = true
}.

(** The state in which [run] starts the process. *)
Definition at_spawn (cfg : BuildConfig) (py : option string)
    (cmd : list string) : State BuildWorker :=
  {| popen_calls := [];
     user := {| config := cfg;
                python_path := python_path (init host cfg py);
                _cancelled := false; flag_reads := 0;
                emitted :=
                  [status_changed "Preparing build...";
                   output_line (">>> " ++ PyStr.join " " cmd
                                ++ String "010"%char "");
                   status_changed "Building..."] |} |}.

(** The result the runner hands to [run]. *)
Definition stream_result (cfg : BuildConfig) (cmd : list string)
    : Shell.ProcessResult :=
  match Popen host cmd (working_dir cfg) with
  | Ok process => Shell.outcome process
  | Raise e =>
      {| Shell.return_code := -1; Shell.stdout := "";
         Shell.stderr := str_exn e; Shell.success := false |}
  end.

(** The one result a build emits once its command is built: what
    the flag says at the read after draining decides first, the
    runner's result second. *)
Definition verdict (cfg : BuildConfig) (cmd : list string) : BuildResult :=
  let build_time := (finish_time - start_time)%Z in
  if cancel_observed (lines_drained cfg cmd) then
    {| status := CANCELLED; output_path := None;
       error_message := ""; build_time := build_time |}
  else if Shell.success (stream_result cfg cmd) then
    {| status := SUCCESS;
       output_path := if PyStr.truthy (output_dir cfg)
                      then Some (Path (output_dir cfg)) else None;
       error_message := ""; build_time := build_time |}
  else
    {| status := FAILED; output_path := None;
       error_message :=
         if PyStr.truthy (Shell.stderr (stream_result cfg cmd))
         then Shell.stderr (stream_result cfg cmd)
         else "Build failed";
       build_time := build_time |}.

End Run.

End Builder.

(* ------------------------------------------------------------------ *)
(** ** [app/core/venv_manager.py]: [VenvWorker._install_requirements] *)

Module Venv.

(** A [pathlib] path of the environment code: the path a worker or the
    manager is given ([given]), and the names joined to it with [/],
    in order.  What the path is on disk and how it prints is for the
    disk below to say. *)
Record EnvPath : Type := mkEnvPath {
  given : string;
  joined : list string
}.

(** [p / name] *)
Definition joinpath (p : EnvPath) (name : string) : EnvPath :=
  {| given := given p; joined := joined p ++ [name] |}.

(** The file system as the environment code meets it.  A query answers,
    or raises the [OSError] the operating system reports. *)
Record Disk : Type := mkDisk {
  (** [p.exists()] *)
  disk_exists : EnvPath -> result bool;
  (** [str(p)] *)
  disk_str : EnvPath -> string;
  (** [p.is_dir()] *)
  disk_is_dir : EnvPath -> result bool;
  (** [p.iterdir()]: the names of the entries of the directory *)
  disk_iterdir : EnvPath -> result (list string);
  (** [shutil.rmtree(p)] *)
  disk_rmtree : EnvPath -> result unit
}.

Inductive Signal : Type :=
| output_line (line : string)
| operation_finished (ok : bool) (message : string)
| progress (message : string).

Record VenvWorker : Type := mkVenvWorker {
  operation : string;
  venv_path : EnvPath;
  requirements_path : option EnvPath;
  emitted : list Signal
}.

Definition init (operation : string) (venv_path : EnvPath)
    (requirements_path : option EnvPath) : VenvWorker :=
  {| operation := operation; venv_path := venv_path;
     requirements_path := requirements_path; emitted := [] |}.

Definition emit (sig : Signal) : M VenvWorker unit :=
  modify_user (fun self =>
    {| operation := operation self; venv_path := venv_path self;
       requirements_path := requirements_path self;
       emitted := emitted self ++ [sig] |}).

(** A query of the disk inside a worker: its answer, or its exception
    raised. *)
Definition ask {A : Type} (answer : result A) : M VenvWorker A :=
  fun st => (answer, st).

Section Install.

Variable host : Host.
Variable disk : Disk.

(** [str(p)] of an optional path. *)
Definition str_optional (p : option EnvPath) : string :=
  match p with
  | Some path => disk_str disk path
  | None => "None"
  end.

(** The installer of the environment rooted at [root]. *)
Definition pip_path (root : EnvPath) : EnvPath :=
  if is_win32 (sys_platform host)
  then joinpath (joinpath root "Scripts") "pip.exe"
  else joinpath (joinpath root "bin") "pip".

(** [not self.requirements_path or not self.requirements_path.exists()];
    a path object is always true as a condition. *)
Definition manifest_missing (requirements_path : option EnvPath)
    : result bool :=
  match requirements_path with
  | None => Ok true
  | Some requirements =>
      bind (disk_exists disk requirements) (fun there => Ok (negb there))
  end.

Definition output_callback (line : string) : M VenvWorker unit :=
  emit (output_line line).

Definition _install_requirements : M VenvWorker unit :=
  try_exceptM
    (self <- get_user ;;
     missing <- ask (manifest_missing (requirements_path self)) ;;
     if missing
     then emit (operation_finished false "Requirements file not found")
     else
       emit (progress "Installing requirements...") ;;;
       let pip_path := pip_path (venv_path self) in
       there <- ask (disk_exists disk pip_path) ;;
       if negb there
       then emit (operation_finished false
                    "Pip not found in virtual environment")
       else
         let cmd := [disk_str disk pip_path; "install"; "-r";
                     str_optional (requirements_path self)] in
         result <- Shell.run_command_stream host cmd
                     output_callback None ;;
         if Shell.success result
         then emit (operation_finished true "Requirements installed")
         else emit (operation_finished false
                      ("Failed: " ++ Shell.stderr result)))%M
    (fun e => emit (operation_finished false (str_exn e))).

(** The install operation on a fresh worker. *)
Definition install (venv_path : EnvPath)
    (requirements_path : option EnvPath) : State VenvWorker :=
  snd (_install_requirements
         (initial_state (init "install" venv_path requirements_path))).

End Install.

End Venv.

(* ------------------------------------------------------------------ *)
(** ** [app/core/plugin_loader.py] *)

Module PluginLoader.

Record PluginInfo : Type := mkPluginInfo {
  name : string;
  description : string;
  version : string;
  author : string;
  plugin_type : string;
  enabled : bool
}.

(** A Python [dict] with string keys: the entries in insertion order,
    no key twice. *)
Section Dict.

Variable V : Type.

Definition dict : Type := list (string * V).

(** [d.get(k)] *)
Fixpoint dict_get (d : dict) (k : string) : option V :=
  match d with
  | [] => None
  | (k', v) :: r => if String.eqb k' k then Some v else dict_get r k
  end.

(** [d\[k\] = v]: an existing key keeps its place. *)
Fixpoint dict_set (d : dict) (k : string) (v : V) : dict :=
  match d with
  | [] => [(k, v)]
  | (k', v') :: r =>
      if String.eqb k' k then (k', v) :: r
      else (k', v') :: dict_set r k v
  end.

(** [d.values()] *)
Definition dict_values (d : dict) : list V := map snd d.

End Dict.

Arguments dict_get {V} d k.
Arguments dict_set {V} d k v.
Arguments dict_values {V} d.

Section Plugins.

(** The dictionary handed to a plugin. *)
Variable Context : Type.

(** A plugin instance: the class attributes, which of the two base
    classes below [PluginBase] it is an instance of, and what its
    [execute] does with a context (return a boolean, or raise). *)
Record Plugin : Type := mkPlugin {
  NAME : string;
  DESCRIPTION : string;
  VERSION : string;
  AUTHOR : string;
  PLUGIN_TYPE : string;
  isinstance_BuildProcessorPlugin : bool;
  isinstance_PostBuildPlugin : bool;
  (** what [self.get_info()] does: the method is [PluginBase.get_info]
      below unless the plugin's class overrides it *)
  get_info : result PluginInfo;
  execute : Context -> result bool
}.

(** [PluginBase.get_info]: [enabled] keeps its default. *)
Definition PluginBase_get_info (self : Plugin) : PluginInfo :=
  {| name := NAME self; description := DESCRIPTION self;
     version := VERSION self; author := AUTHOR self;
     plugin_type := PLUGIN_TYPE self; enabled := true |}.

(** [self.plugins] *)
Definition Registry : Type := dict Plugin.

(** [self.plugins\[plugin_instance.NAME\] = plugin_instance] *)
Definition register (plugins : Registry) (plugin_instance : Plugin)
    : Registry :=
  dict_set plugins (NAME plugin_instance) plugin_instance.

Definition get_plugin (plugins : Registry) (name : string)
    : option Plugin :=
  dict_get plugins name.

Definition get_post_build_plugins (plugins : Registry) : list Plugin :=
  filter isinstance_PostBuildPlugin (dict_values plugins).

(** The names of the plugins whose [execute] has been called, in
    call order. *)
Definition Calls : Type := list string.

(** [execute_plugin]; a plugin object is always true as a
    condition. *)
Definition execute_plugin (plugins : Registry) (name : string)
    (context : Context) (calls : Calls) : bool * Calls :=
  match get_plugin plugins name with
  | Some plugin =>
      match execute plugin context with
      | Ok b => (b, calls ++ [NAME plugin])
      | Raise e => (false, calls ++ [NAME plugin])
      end
  | None => (false, calls)
  end.

(** The loop of [execute_post_build_plugins]; [get_info] is called
    outside any [try]. *)
Fixpoint post_build_loop (plugins : Registry) (todo : list Plugin)
    (context : Context) (results : dict bool) (calls : Calls)
    : result (dict bool) * Calls :=
  match todo with
  | [] => (Ok results, calls)
  | plugin :: rest =>
      match get_info plugin with
      | Raise e => (Raise e, calls)
      | Ok info =>
          if enabled info then
            let (b, calls') :=
              execute_plugin plugins (NAME plugin) context calls in
            post_build_loop plugins rest context
              (dict_set results (NAME plugin) b) calls'
          else post_build_loop plugins rest context results calls
      end
  end.

Definition execute_post_build_plugins (plugins : Registry)
    (context : Context) (calls : Calls) : result (dict bool) * Calls :=
  post_build_loop plugins (get_post_build_plugins plugins) context [] calls.

(** The plugin's [get_info] returns an info that says enabled. *)
Definition reports_enabled (plugin : Plugin) : bool :=
  match get_info plugin with
  | Ok info => enabled info
  | Raise _ => false
  end.

(** How many entries of a result map are [False]. *)
Definition count_false (results : dict bool) : nat :=
  length (filter (fun kv => negb (snd kv)) results).

End Plugins.

Arguments NAME {Context} p.
Arguments isinstance_PostBuildPlugin {Context} p.
Arguments isinstance_BuildProcessorPlugin {Context} p.
Arguments execute {Context} p c.
Arguments get_info {Context} p.
Arguments PluginBase_get_info {Context} self.
Arguments reports_enabled {Context} plugin.
Arguments register {Context} plugins plugin_instance.
Arguments get_plugin {Context} plugins name.
Arguments get_post_build_plugins {Context} plugins.
Arguments execute_plugin {Context} plugins name context calls.
Arguments post_build_loop {Context} plugins todo context results calls.
Arguments execute_post_build_plugins {Context} plugins context calls.

(** What [execute_plugin] makes of a plugin's outcome. *)
Definition reported (r : result bool) : bool :=
  match r with
  | Ok b => b
  | Raise _ => false
  end.

End PluginLoader.

(* ------------------------------------------------------------------ *)
(** ** Concrete configurations, hosts and plugins used below *)

(** The configuration of the example scenario: every field not named
    keeps its default. *)
Definition example_config : BuildConfig :=
  {| script_path := "app.py"; requirements_path := ""; output_dir := "out";
     icon_path := ""; app_name := "";
     one_file := true; console_mode := false; clean_build := true;
     hidden_imports := []; exclude_modules := []; data_files := [];
     additional_args := "" |}.

(** A configuration asking for one file whose extra-argument string
    names the directory flag. *)
Definition onefile_with_onedir_extra : BuildConfig :=
  {| script_path := "app.py"; requirements_path := ""; output_dir := "";
     icon_path := ""; app_name := "";
     one_file := true; console_mode := true; clean_build := true;
     hidden_imports := []; exclude_modules := []; data_files := [];
     additional_args := "--onedir" |}.

(** A process whose only line ends in a blank before the newline. *)
Definition blank_ended_host : Host :=
  {| sys_platform := "linux"; sys_executable := "python";
     path_exists := fun _ => true; path_parent := fun p => p;
     Popen := fun _ _ => Ok {| pipe_text := "a " ++ String "010"%char "";
                               pipe_fault := None; returncode := 0 |};
     subprocess_run := fun _ _ _ => Raise (OSError "not used") |}.

(** A host whose build process prints two lines and exits with 1. *)
Definition failing_build_host : Host :=
  {| sys_platform := "linux"; sys_executable := "python";
     path_exists := fun _ => true; path_parent := fun _ => ".";
     Popen := fun _ _ =>
       Ok {| pipe_text := "compiling" ++ String "010"%char ""
                          ++ "error: no module" ++ String "010"%char "";
             pipe_fault := None; returncode := 1 |};
     subprocess_run := fun _ _ _ => Raise (OSError "not used") |}.

(** A host on which only the manifest [req.txt] exists. *)
Definition bare_host : Host :=
  {| sys_platform := "linux"; sys_executable := "python";
     path_exists := fun p => String.eqb p "req.txt";
     path_parent := fun _ => ".";
     Popen := fun _ _ =>
       Ok {| pipe_text := ""; pipe_fault := None; returncode := 0 |};
     subprocess_run := fun _ _ _ => Raise (OSError "not used") |}.

(** Three post-build plugins over a context without content: the first
    returns [False], the second raises, the third returns [True]. *)
Definition quiet_failure : PluginLoader.Plugin unit :=
  PluginLoader.mkPlugin unit "first" "" "1.0.0" "" "post_build" false true
    (Ok (PluginLoader.mkPluginInfo "first" "" "1.0.0" "" "post_build" true))
    (fun _ => Ok false).

Definition thrower : PluginLoader.Plugin unit :=
  PluginLoader.mkPlugin unit "second" "" "1.0.0" "" "post_build" false true
    (Ok (PluginLoader.mkPluginInfo "second" "" "1.0.0" "" "post_build" true))
    (fun _ => Raise (RuntimeError "boom")).

Definition succeeder : PluginLoader.Plugin unit :=
  PluginLoader.mkPlugin unit "third" "" "1.0.0" "" "post_build" false true
    (Ok (PluginLoader.mkPluginInfo "third" "" "1.0.0" "" "post_build" true))
    (fun _ => Ok true).

(** A process that exits with 0 after printing one good line and a
    byte that is no text. *)
Definition undecodable_host : Host :=
  {| sys_platform := "win32"; sys_executable := "python";
     path_exists := fun _ => true; path_parent := fun _ => ".";
     Popen := fun _ _ =>
       Ok {| pipe_text := "building" ++ String "010"%char "";
             pipe_fault :=
               Some (ValueError "'charmap' codec can't decode byte 0x81");
             returncode := 0 |};
     subprocess_run := fun _ _ _ => Raise (OSError "not used") |}.

(** A build process that exits with 1 and whose output cannot be
    decoded. *)
Definition garbled_failing_host : Host :=
  {| sys_platform := "win32"; sys_executable := "python";
     path_exists := fun _ => true; path_parent := fun _ => ".";
     Popen := fun _ _ =>
       Ok {| pipe_text := "";
             pipe_fault :=
               Some (ValueError "'charmap' codec can't decode byte 0x81");
             returncode := 1 |};
     subprocess_run := fun _ _ _ => Raise (OSError "not used") |}.

(** Two more post-build plugins: one that returns [True], and one whose
    [get_info] says it is not enabled. *)
Definition archiver : PluginLoader.Plugin unit :=
  PluginLoader.mkPlugin unit "archive" "" "1.0.0" "" "post_build" false true
    (Ok (PluginLoader.mkPluginInfo "archive" "" "1.0.0" "" "post_build" true))
    (fun _ => Ok true).

Definition switched_off : PluginLoader.Plugin unit :=
  PluginLoader.mkPlugin unit "off" "" "1.0.0" "" "post_build" false true
    (Ok (PluginLoader.mkPluginInfo "off" "" "1.0.0" "" "post_build" false))
    (fun _ => Ok true).

(** A configuration with three data-file entries, the last one blank. *)
Definition data_config : BuildConfig :=
  {| script_path := "app.py"; requirements_path := ""; output_dir := "";
     icon_path := ""; app_name := "";
     one_file := true; console_mode := true; clean_build := false;
     hidden_imports := []; exclude_modules := [];
     data_files := ["x;y"; "assets/icon.png;assets"; "  "];
     additional_args := "--log-level WARN" |}.

(** How the example disks print a path: its parts with slashes between
    them. *)
Definition render (p : Venv.EnvPath) : string :=
  String.concat "/" (Venv.given p :: Venv.joined p).

(** A disk on which only the manifest [req.txt] exists. *)
Definition bare_disk : Venv.Disk :=
  {| Venv.disk_exists := fun p => Ok (String.eqb (render p) "req.txt");
     Venv.disk_str := render;
     Venv.disk_is_dir := fun _ => Ok false;
     Venv.disk_iterdir := fun _ => Ok [];
     Venv.disk_rmtree := fun _ => Ok tt |}.

(* ------------------------------------------------------------------ *)
(** ** Further definitions: configurations *)

(** The configuration with another icon path. *)
Definition with_icon_path (cfg : BuildConfig) (icon : string) : BuildConfig :=
  {| script_path := script_path cfg;
     requirements_path := requirements_path cfg;
     output_dir := output_dir cfg; icon_path := icon;
     app_name := app_name cfg; one_file := one_file cfg;
     console_mode := console_mode cfg; clean_build := clean_build cfg;
     hidden_imports := hidden_imports cfg;
     exclude_modules := exclude_modules cfg;
     data_files := data_files cfg;
     additional_args := additional_args cfg |}.

(** The configuration with another extra-argument string. *)
Definition with_additional_args (cfg : BuildConfig) (args : string)
    : BuildConfig :=
  {| script_path := script_path cfg;
     requirements_path := requirements_path cfg;
     output_dir := output_dir cfg; icon_path := icon_path cfg;
     app_name := app_name cfg; one_file := one_file cfg;
     console_mode := console_mode cfg; clean_build := clean_build cfg;
     hidden_imports := hidden_imports cfg;
     exclude_modules := exclude_modules cfg;
     data_files := data_files cfg;
     additional_args := args |}.

(** A configuration with a script, a stale icon and blank extras. *)
Definition stale_icon_config : BuildConfig :=
  {| script_path := "app.py"; requirements_path := ""; output_dir := "";
     icon_path := "gone.ico"; app_name := "";
     one_file := false; console_mode := true; clean_build := false;
     hidden_imports := [" pkg.mod "; "   "; "other"];
     exclude_modules := []; data_files := [];
     additional_args := "   " |}.

(* ------------------------------------------------------------------ *)
(** ** Further definitions: runs of the build worker *)

(** A host on which no command can be started. *)
Definition no_tool_host : Host :=
  {| sys_platform := "linux"; sys_executable := "python";
     path_exists := fun _ => false; path_parent := fun _ => ".";
     Popen := fun _ _ => Raise (OSError "No such file or directory");
     subprocess_run := fun _ _ _ =>
       Raise (OSError "No such file or directory") |}.

(** A host whose build process prints two lines and exits with 0. *)
Definition passing_build_host : Host :=
  {| sys_platform := "linux"; sys_executable := "python";
     path_exists := fun _ => true; path_parent := fun _ => ".";
     Popen := fun _ _ =>
       Ok {| pipe_text := "compiling" ++ String "010"%char ""
                          ++ "done  " ++ String "010"%char "";
             pipe_fault := None; returncode := 0 |};
     subprocess_run := fun _ _ _ => Raise (OSError "not used") |}.

(** The lines read from the build process: all it prints, or, when a
    read raises, those read before; none when it does not start. *)
Definition process_lines (host : Host) (cfg : BuildConfig)
    (cmd : list string) : list string :=
  match Popen host cmd (Builder.working_dir host cfg) with
  | Ok process => Shell.lines_of (pipe_text process)
  | Raise _ => []
  end.

(** Of the consumer's arguments [args], those that are relayed when the
    worker has read the flag [n] times already: the ones whose read of
    the flag comes before the call of [cancel()]. *)
Definition relayed_from (cancel_after : option nat) (n : nat)
    (args : list string) : list string :=
  match cancel_after with
  | Some k => firstn (k - n) args
  | None => args
  end.

(** The signals a build emits before it starts its process. *)
Definition preamble (cmd : list string) : list Builder.Signal :=
  [Builder.status_changed "Preparing build...";
   Builder.output_line (">>> " ++ PyStr.join " " cmd ++ String "010"%char "");
   Builder.status_changed "Building..."].

(* ------------------------------------------------------------------ *)
(** ** [app/core/plugin_loader.py]: discovery and the other queries *)

Module PluginDiscovery.
Import PluginLoader.

Section Discovery.

Variable Context : Type.

(** A class found among the members of a loaded module. *)
Record PluginClass : Type := mkPluginClass {
  class_name : string;
  (** [issubclass(obj, PluginBase)] and [obj] is none of the three base
      classes *)
  is_plugin_class : bool;
  (** [obj()]: the instance, or the exception the constructor raises *)
  instantiate : result (Plugin Context)
}.

(** A file of the plugins directory that matches [*.py]. *)
Record PluginFile : Type := mkPluginFile {
  file_name : string;
  (** [spec_from_file_location] gave a spec with a loader *)
  has_loader : bool;
  (** [exec_module], then [inspect.getmembers(module, inspect.isclass)]:
      the classes of the module, or the exception raised while the
      module runs *)
  exec_module : result (list PluginClass)
}.

(** The loop over the classes of one module. *)
Fixpoint register_classes (plugins : Registry Context)
    (classes : list PluginClass) : Registry Context :=
  match classes with
  | [] => plugins
  | obj :: rest =>
      if is_plugin_class obj then
        match instantiate obj with
        | Ok plugin_instance =>
            register_classes (register plugins plugin_instance) rest
        | Raise _ => register_classes plugins rest
        end
      else register_classes plugins rest
  end.

Definition _load_plugin_file (plugins : Registry Context)
    (file : PluginFile) : result (Registry Context) :=
  if negb (has_loader file) then Ok plugins
  else bind (exec_module file) (fun classes =>
         Ok (register_classes plugins classes)).

(** [name.startswith("_")] *)
Definition startswith_underscore (name : string) : bool :=
  match name with
  | String c _ => Ascii.eqb c "_"%char
  | EmptyString => false
  end.

(** The loop of [_load_plugins] over the files. *)
Fixpoint load_files (plugins : Registry Context) (files : list PluginFile)
    : Registry Context :=
  match files with
  | [] => plugins
  | plugin_file :: rest =>
      if startswith_underscore (file_name plugin_file)
      then load_files plugins rest
      else
        match _load_plugin_file plugins plugin_file with
        | Ok plugins' => load_files plugins' rest
        | Raise _ => load_files plugins rest
        end
  end.

(** [_load_plugins]: [directory] is [None] when the plugins directory
    does not exist (it is then created, and nothing is loaded), and
    otherwise lists its [*.py] files. *)
Definition _load_plugins (plugins : Registry Context)
    (directory : option (list PluginFile)) : Registry Context :=
  match directory with
  | None => plugins
  | Some files => load_files plugins files
  end.

(** [reload_plugins]: [self.plugins.clear()], then [_load_plugins]. *)
Definition reload_plugins (plugins : Registry Context)
    (directory : option (list PluginFile)) : Registry Context :=
  _load_plugins [] directory.

(** [get_plugins_by_type] *)
Definition get_plugins_by_type (plugins : Registry Context)
    (plugin_type : string) : list (Plugin Context) :=
  filter (fun p => String.eqb (PLUGIN_TYPE Context p) plugin_type)
    (dict_values plugins).

(** The names a registry is keyed by. *)
Definition names (plugins : Registry Context) : list string :=
  map fst plugins.

(** Every plugin sits under its own name, and no name twice. *)
Definition well_formed (plugins : Registry Context) : Prop :=
  NoDup (names plugins)
  /\ Forall (fun kv => fst kv = NAME (snd kv)) plugins.

(** The file is passed over by discovery: its name starts with an
    underscore, it has no loader, or running it raises. *)
Definition contributes_nothing (file : PluginFile) : Prop :=
  startswith_underscore (file_name file) = true
  \/ has_loader file = false
  \/ exists e, exec_module file = Raise e.

(** The instances discovery can make from the files. *)
Definition instance_of (files : list PluginFile) (p : Plugin Context) : Prop :=
  exists file classes obj,
    In file files /\ exec_module file = Ok classes
    /\ In obj classes /\ instantiate obj = Ok p.

End Discovery.

Arguments class_name {Context} p.
Arguments is_plugin_class {Context} p.
Arguments instantiate {Context} p.
Arguments file_name {Context} p.
Arguments has_loader {Context} p.
Arguments exec_module {Context} p.
Arguments register_classes {Context} plugins classes.
Arguments _load_plugin_file {Context} plugins file.
Arguments load_files {Context} plugins files.
Arguments _load_plugins {Context} plugins directory.
Arguments reload_plugins {Context} plugins directory.
Arguments get_plugins_by_type {Context} plugins plugin_type.
Arguments names {Context} plugins.
Arguments well_formed {Context} plugins.
Arguments contributes_nothing {Context} file.
Arguments instance_of {Context} files p.

(** A plugins directory: a good file, a private one, a broken one. *)
Definition zip_file : PluginFile unit :=
  mkPluginFile unit "zip_output.py" true
    (Ok [mkPluginClass unit "PostBuildPlugin" false (Raise (OtherException "abstract"));
         mkPluginClass unit "ZipOutputPlugin" true (Ok succeeder)]).

Definition private_file : PluginFile unit :=
  mkPluginFile unit "_helpers.py" true
    (Ok [mkPluginClass unit "Hidden" true (Ok thrower)]).

Definition broken_file : PluginFile unit :=
  mkPluginFile unit "broken.py" true (Raise (OtherException "invalid syntax")).

End PluginDiscovery.

(* ------------------------------------------------------------------ *)
(** ** [app/core/venv_manager.py]: the other operations *)

Module VenvOps.
Import Venv.

Record VenvInfo : Type := mkVenvInfo {
  path : EnvPath;
  python_path : EnvPath;
  pip_path : EnvPath;
  exists_ : bool;
  python_version : string
}.

Section Ops.

Variable host : Host.
Variable disk : Disk.

Definition _create_venv : M VenvWorker unit :=
  try_exceptM
    (emit (progress "Creating virtual environment...") ;;;
     self <- get_user ;;
     emit (output_line ("Creating venv at: "
                        ++ disk_str disk (venv_path self))) ;;;
     let cmd := [sys_executable host; "-m"; "venv";
                 disk_str disk (venv_path self)] in
     result <- Shell.run_command_stream host cmd output_callback None ;;
     if Shell.success result
     then emit (operation_finished true "Virtual environment created")
     else emit (operation_finished false
                  ("Failed: " ++ Shell.stderr result)))%M
    (fun e => emit (operation_finished false (str_exn e))).

Definition _delete_venv : M VenvWorker unit :=
  try_exceptM
    (emit (progress "Deleting virtual environment...") ;;;
     self <- get_user ;;
     there <- ask (disk_exists disk (venv_path self)) ;;
     if there
     then
       ask (disk_rmtree disk (venv_path self)) ;;;
       emit (operation_finished true "Virtual environment deleted")
     else emit (operation_finished false "Virtual environment not found"))%M
    (fun e => emit (operation_finished false (str_exn e))).

(** [VenvWorker.run] *)
Definition run : M VenvWorker unit :=
  (self <- get_user ;;
   if String.eqb (operation self) "create" then _create_venv
   else if String.eqb (operation self) "install"
        then _install_requirements host disk
   else if String.eqb (operation self) "delete" then _delete_venv
   else ret tt)%M.

(** The signals of an operation run on a fresh worker. *)
Definition signals_of (operation : string) (root : EnvPath)
    (requirements_path : option EnvPath) : list Signal :=
  emitted (user (snd (run (initial_state
                            (init operation root requirements_path))))).

(** The interpreter of the environment rooted at [root]. *)
Definition interpreter_path (root : EnvPath) : EnvPath :=
  if is_win32 (sys_platform host)
  then joinpath (joinpath root "Scripts") "python.exe"
  else joinpath (joinpath root "bin") "python".

(** [a.exists() and b.exists()]: the second is asked only when the
    first says yes. *)
Definition both_exist (a b : EnvPath) : result bool :=
  bind (disk_exists disk a) (fun there =>
    if there then disk_exists disk b else Ok false).

(** [VenvManager.get_venv_info] *)
Definition get_venv_info (base_path : EnvPath) (name : string)
    : result VenvInfo :=
  let venv_path := joinpath base_path name in
  let python_path := interpreter_path venv_path in
  let pip_path := Venv.pip_path host venv_path in
  bind (both_exist venv_path python_path) (fun exists_ =>
  bind (if exists_
        then bind (Shell.run_command host
                     [disk_str disk python_path; "--version"] None None)
               (fun result =>
                  Ok (if Shell.success result
                      then PyStr.strip (Shell.stdout result) else ""))
        else Ok "")
    (fun python_version =>
       Ok {| path := venv_path; python_path := python_path;
             pip_path := pip_path; exists_ := exists_;
             python_version := python_version |})).

(** The loop of [list_venvs] over the names [iterdir] lists. *)
Fixpoint list_entries (base_path : EnvPath) (entries : list string)
    : result (list VenvInfo) :=
  match entries with
  | [] => Ok []
  | name :: rest =>
      bind (disk_is_dir disk (joinpath base_path name)) (fun is_dir =>
        if is_dir
        then bind (get_venv_info base_path name) (fun info =>
               bind (list_entries base_path rest) (fun venvs =>
                 Ok (info :: venvs)))
        else list_entries base_path rest)
  end.

(** [VenvManager.list_venvs] *)
Definition list_venvs (base_path : EnvPath) : result (list VenvInfo) :=
  bind (disk_exists disk base_path) (fun there =>
    if there
    then bind (disk_iterdir disk base_path) (list_entries base_path)
    else Ok []).

(** [VenvManager.get_python_interpreters] *)
Definition get_python_interpreters (base_path : EnvPath)
    : result (list string) :=
  bind (list_venvs base_path) (fun venvs =>
    Ok (sys_executable host
        :: map (fun venv => disk_str disk (python_path venv))
             (filter exists_ venvs))).

End Ops.

(** The [operation_finished] signals among the emitted ones. *)
Fixpoint finishes (sigs : list Signal) : list (bool * string) :=
  match sigs with
  | [] => []
  | operation_finished ok message :: rest => (ok, message) :: finishes rest
  | _ :: rest => finishes rest
  end.

(** A host whose processes print one line and exit with 1, and whose
    interpreters answer the version query. *)
Definition one_env_host : Host :=
  {| sys_platform := "linux"; sys_executable := "/usr/bin/python3";
     path_exists := fun _ => false;
     path_parent := fun _ => ".";
     Popen := fun _ _ =>
       Ok {| pipe_text := "Collecting pkg" ++ String "010"%char "";
             pipe_fault := None; returncode := 1 |};
     subprocess_run := fun _ _ _ =>
       Ok {| cp_returncode := 0;
             cp_stdout := "Python 3.11.4" ++ String "010"%char "";
             cp_stderr := "" |} |}.

(** A disk with one environment, [envs/py311], beside a file
    [envs/notes.txt]. *)
Definition one_env_disk : Disk :=
  {| disk_exists := fun p =>
       Ok (String.eqb (render p) "envs"
           || String.eqb (render p) "envs/py311"
           || String.eqb (render p) "envs/py311/bin/python");
     disk_str := render;
     disk_is_dir := fun p => Ok (String.eqb (render p) "envs/py311");
     disk_iterdir := fun _ => Ok ["notes.txt"; "py311"];
     disk_rmtree := fun _ => Ok tt |}.

(** A disk that refuses every query. *)
Definition locked_disk : Disk :=
  {| disk_exists := fun _ => Raise (OSError "Permission denied");
     disk_str := render;
     disk_is_dir := fun _ => Raise (OSError "Permission denied");
     disk_iterdir := fun _ => Raise (OSError "Permission denied");
     disk_rmtree := fun _ => Raise (OSError "Permission denied") |}.

(** A disk on which every path asked for exists, as a directory with
    no entries. *)
Definition full_disk : Disk :=
  {| disk_exists := fun _ => Ok true;
     disk_str := render;
     disk_is_dir := fun _ => Ok true;
     disk_iterdir := fun _ => Ok [];
     disk_rmtree := fun _ => Ok tt |}.

End VenvOps.

(* ------------------------------------------------------------------ *)
(** ** [app/utils/validators.py] and the recent-projects list of
       [app/core/config_manager.py] *)

Module Validators.

(** [invalid_chars], character by character: the angle brackets, the
    colon, the double quote, the two slashes, the bar, the question
    mark and the star. *)
Definition invalid_chars : list ascii :=
  ["<"; ">"; ":"; "034"; "/"; "\"; "|"; "?"; "*"]%char.

(** [char in name] *)
Definition contains (name : string) (char : ascii) : bool :=
  PyStr.mem char name.

Definition validate_app_name (name : string) : bool * string :=
  if negb (PyStr.truthy name) then (false, "Application name is required")
  else
    match find (contains name) invalid_chars with
    | Some char =>
        (false, ("Name contains invalid character: " ++ String char "")%string)
    | None =>
        if (100 <? String.length name)%nat
        then (false, "Name is too long (max 100 characters)")
        else (true, "Valid application name")
    end.

(** [s.lstrip(chars)] and [s.rstrip(chars)] for a set of characters. *)
Fixpoint lstrip_chars (chars : ascii -> bool) (s : string) : string :=
  match s with
  | EmptyString => EmptyString
  | String c r => if chars c then lstrip_chars chars r else s
  end.

Fixpoint rstrip_chars (chars : ascii -> bool) (s : string) : string :=
  match s with
  | EmptyString => EmptyString
  | String c r =>
      match rstrip_chars chars r with
      | EmptyString => if chars c then EmptyString else String c EmptyString
      | r' => String c r'
      end
  end.

(** [s.strip(' .')] *)
Definition strip_spaces_and_dots (s : string) : string :=
  rstrip_chars (fun c => Ascii.eqb c " " || Ascii.eqb c ".")%char
    (lstrip_chars (fun c => Ascii.eqb c " " || Ascii.eqb c ".")%char s).

Definition sanitize_filename (name : string) : string :=
  let name :=
    fold_left (fun name char => PyStr.replace char "_" name)
      invalid_chars name in
  let name := strip_spaces_and_dots name in
  let name :=
    if (100 <? String.length name)%nat then String.substring 0 100 name
    else name in
  if PyStr.truthy name then name else "unnamed".

End Validators.

Module RecentProjects.

(** [MAX_RECENT_PROJECTS] *)
Definition MAX_RECENT_PROJECTS : nat := 10.

(** [l.remove(x)] when [x] is in [l]: the first occurrence goes. *)
Fixpoint remove_first (x : string) (l : list string) : list string :=
  match l with
  | [] => []
  | y :: r => if String.eqb y x then r else y :: remove_first x r
  end.

(** [x in l] *)
Definition contains (l : list string) (x : string) : bool :=
  existsb (String.eqb x) l.

(** [add_recent_project], on the list itself; the write to the
    configuration file that follows is left out. *)
Definition add_recent_project (recent_projects : list string)
    (path : string) : list string :=
  let recent_projects :=
    if contains recent_projects path
    then remove_first path recent_projects else recent_projects in
  let recent_projects := path :: recent_projects in
  firstn MAX_RECENT_PROJECTS recent_projects.

End RecentProjects.
(* ------------------------------------------------------------------ *)
(** ** Facts about the string operations *)

Module PyStrFacts.
Import PyStr.

Lemma truthy_rstrip s : truthy (rstrip s) = has_nonspace s.
Proof.
  induction s as [|c r IH]; simpl; [reflexivity|].
  destruct (rstrip r) eqn:E; simpl in *.
  - rewrite <- IH. destruct (is_space c); reflexivity.
  - rewrite <- IH. destruct (is_space c); reflexivity.
Qed.

Lemma has_nonspace_lstrip s : has_nonspace (lstrip s) = has_nonspace s.
Proof.
  induction s as [|c r IH]; simpl; [reflexivity|].
  destruct (is_space c) eqn:E; simpl; [exact IH|].
  rewrite E; reflexivity.
Qed.

Lemma truthy_strip s : truthy (strip s) = has_nonspace s.
Proof.
  unfold strip. rewrite truthy_rstrip. apply has_nonspace_lstrip.
Qed.

Lemma has_nonspace_app a c b :
  is_space c = false -> has_nonspace (a ++ String c b)%string = true.
Proof.
  intros Hc. induction a as [|d r IH]; simpl.
  - rewrite Hc; reflexivity.
  - rewrite IH. apply orb_true_r.
Qed.

Lemma app_assoc (a b c : string) :
  ((a ++ b) ++ c)%string = (a ++ b ++ c)%string.
Proof. induction a as [|x r IH]; simpl; [reflexivity | now rewrite IH]. Qed.

Lemma replace_app old new a b :
  replace old new (a ++ b)%string
  = (replace old new a ++ replace old new b)%string.
Proof.
  induction a as [|c r IH]; simpl; [reflexivity|].
  destruct (Ascii.eqb c old); simpl; rewrite IH.
  - symmetry; apply app_assoc.
  - reflexivity.
Qed.

Lemma replace_absent old new s :
  mem old s = false -> replace old new s = s.
Proof.
  induction s as [|c r IH]; simpl; [reflexivity|].
  intros H. apply orb_false_iff in H as [Hc Hr].
  rewrite Hc, (IH Hr). reflexivity.
Qed.

Lemma app_empty_r (s : string) : (s ++ "")%string = s.
Proof. induction s as [|c r IH]; simpl; [reflexivity | now rewrite IH]. Qed.

(** A separator written between two strings free of it is the only
    place [replace] touches. *)
Lemma replace_separator old new a b :
  mem old a = false -> mem old b = false ->
  replace old new (a ++ String old b)%string = (a ++ new ++ b)%string.
Proof.
  intros Ha Hb. rewrite replace_app. simpl.
  rewrite Ascii.eqb_refl, (replace_absent _ new _ Ha), (replace_absent _ new _ Hb).
  reflexivity.
Qed.

(** A trailing white-space character does not survive [rstrip]. *)
Lemma rstrip_app_space l c :
  is_space c = true -> rstrip (l ++ String c "")%string = rstrip l.
Proof.
  intros Hc. induction l as [|d r IH]; simpl.
  - now rewrite Hc.
  - now rewrite IH.
Qed.

End PyStrFacts.

(* ------------------------------------------------------------------ *)
(** ** Properties of the command builder *)

Module CommandBuilderFacts.
Import CommandBuilder.

Section Facts.

Variable sys_platform : string.
Variable path_exists : string -> bool.
Variable python_path : string.

Lemma in_flag_per_entry flag xs x :
  In x (flag_per_entry flag xs) -> x = flag \/ In x (map PyStr.strip xs).
Proof.
  induction xs as [|y r IH]; simpl; [tauto|].
  destruct (PyStr.truthy (PyStr.strip y)); simpl; intuition auto.
Qed.

Lemma in_add_data_args xs x :
  In x (add_data_args sys_platform xs) ->
  x = "--add-data" \/ In x (map (normalized sys_platform) xs).
Proof.
  induction xs as [|y r IH]; simpl; [tauto|].
  destruct (PyStr.truthy (PyStr.strip y)); simpl; intuition auto.
Qed.

(** With a script path the builder returns a vector. *)
Lemma build_command_ok config :
  script_path config <> "" ->
  exists cmd,
    _build_command sys_platform path_exists python_path config = Ok cmd.
Proof.
  intros H. unfold _build_command.
  destruct (script_path config); [congruence|]. simpl. eauto.
Qed.

(** Where an element of the vector comes from: it is one of the
    builder's own flags or one of the caller's values. *)
Lemma build_command_elements config cmd x :
  _build_command sys_platform path_exists python_path config = Ok cmd ->
  In x cmd ->
  In x ["-m"; "PyInstaller";
        (if one_file config then "--onefile" else "--onedir");
        "--noconsole"; "--clean"; "--noconfirm"; "--distpath"; "--name";
        "--icon"; "--hidden-import"; "--exclude-module"; "--add-data"]
  \/ In x (caller_values sys_platform python_path config).
Proof.
  unfold _build_command, caller_values.
  destruct (PyStr.truthy (script_path config)); simpl; [|discriminate].
  intros E; injection E as <-.
  repeat rewrite in_app_iff; simpl.
  destruct (one_file config), (console_mode config), (clean_build config),
    (PyStr.truthy (output_dir config)), (PyStr.truthy (app_name config)),
    (PyStr.truthy (icon_path config) && path_exists (icon_path config)),
    (PyStr.truthy (additional_args config)); simpl;
    repeat rewrite in_app_iff; simpl;
    intros H; decompose [or] H; clear H; subst; auto 20;
    try contradiction;
    repeat match goal with
      | H : In _ (flag_per_entry _ _) |- _ =>
          apply in_flag_per_entry in H; destruct H; subst
      | H : In _ (add_data_args _ _) |- _ =>
          apply in_add_data_args in H; destruct H; subst
      end; auto 20;
    right; repeat right; repeat rewrite in_app_iff; auto 10.
Qed.

End Facts.

End CommandBuilderFacts.

(* ------------------------------------------------------------------ *)
(** ** Properties of the process runner *)

Module ShellFacts.
Import Shell.

(** *** Reading lines *)

Lemma readline_app s :
  (fst (readline s) ++ snd (readline s))%string = s.
Proof.
  induction s as [|c r IH]; simpl; [reflexivity|].
  destruct (Ascii.eqb c "010"%char); simpl; [reflexivity|].
  destruct (readline r) as [line rest]; simpl in *. now rewrite IH.
Qed.

Lemma readline_truthy s :
  PyStr.truthy (fst (readline s)) = PyStr.truthy s.
Proof.
  destruct s as [|c r]; simpl; [reflexivity|].
  destruct (Ascii.eqb c "010"%char); simpl; [reflexivity|].
  destruct (readline r); reflexivity.
Qed.

Lemma readline_rest_shorter c r :
  String.length (snd (readline (String c r))) <= String.length r.
Proof.
  revert c. induction r as [|d r IH]; intros c; simpl.
  - destruct (Ascii.eqb c "010"%char); simpl; lia.
  - destruct (Ascii.eqb c "010"%char); simpl; [lia|].
    specialize (IH d). simpl in IH.
    destruct (Ascii.eqb d "010"%char); simpl in *; [lia|].
    destruct (readline r); simpl in *; lia.
Qed.

(** More fuel than the text has characters changes nothing. *)
Lemma iter_readline_fuel f1 :
  forall f2 s,
    String.length s < f1 -> String.length s < f2 ->
    iter_readline f1 s = iter_readline f2 s.
Proof.
  induction f1 as [|f1 IH]; intros f2 s H1 H2; [lia|].
  destruct f2 as [|f2]; [lia|].
  destruct s as [|c r]; [reflexivity|].
  cbn [iter_readline].
  pose proof (readline_rest_shorter c r) as Hlen.
  pose proof (readline_truthy (String c r)) as Ht.
  destruct (readline (String c r)) as [line rest].
  cbn [fst snd PyStr.truthy String.length] in *.
  rewrite Ht. f_equal. apply IH; lia.
Qed.

(** The loop [iter(readline, '')], one turn at a time. *)
Lemma lines_of_unfold s :
  lines_of s =
  if PyStr.truthy s
  then fst (readline s) :: lines_of (snd (readline s))
  else [].
Proof.
  unfold lines_of. destruct s as [|c r]; [reflexivity|].
  pose proof (readline_rest_shorter c r) as Hlen.
  pose proof (readline_truthy (String c r)) as Ht.
  change (String.length (String c r)) with (S (String.length r)).
  change (iter_readline (S (S (String.length r))) (String c r))
    with (let (line, rest) := readline (String c r) in
          if PyStr.truthy line
          then line :: iter_readline (S (String.length r)) rest
          else []).
  destruct (readline (String c r)) as [line rest].
  cbn [fst snd PyStr.truthy] in *.
  rewrite Ht. f_equal. apply iter_readline_fuel; lia.
Qed.

Lemma iter_readline_truthy fuel :
  forall s, Forall (fun l => PyStr.truthy l = true) (iter_readline fuel s).
Proof.
  induction fuel as [|f IH]; intros s; simpl; [constructor|].
  destruct (readline s) as [line rest].
  destruct (PyStr.truthy line) eqn:E; constructor; auto.
Qed.

Lemma lines_of_truthy s :
  Forall (fun l => PyStr.truthy l = true) (lines_of s).
Proof. apply iter_readline_truthy. Qed.

Lemma join_empty_cons l ls :
  PyStr.join "" (l :: ls) = (l ++ PyStr.join "" ls)%string.
Proof.
  unfold PyStr.join. destruct ls; simpl.
  - now rewrite PyStrFacts.app_empty_r.
  - reflexivity.
Qed.

Lemma join_iter_readline fuel :
  forall s, String.length s < fuel ->
            PyStr.join "" (iter_readline fuel s) = s.
Proof.
  induction fuel as [|f IH]; intros s H; [lia|].
  destruct s as [|c r]; [reflexivity|].
  cbn [iter_readline].
  pose proof (readline_rest_shorter c r) as Hlen.
  pose proof (readline_truthy (String c r)) as Ht.
  pose proof (readline_app (String c r)) as Happ.
  destruct (readline (String c r)) as [line rest].
  cbn [fst snd PyStr.truthy String.length] in *.
  rewrite Ht, join_empty_cons, IH by lia. exact Happ.
Qed.

(** Nothing of the text is lost: the lines joined are the text. *)
Lemma join_lines_of s : PyStr.join "" (lines_of s) = s.
Proof. apply join_iter_readline. lia. Qed.

(** A newline-free line followed by a newline is what [readline]
    returns. *)
Lemma readline_line l rest :
  PyStr.mem "010"%char l = false ->
  readline (l ++ String "010"%char rest)
  = ((l ++ String "010"%char "")%string, rest).
Proof.
  induction l as [|c r IH]; simpl; intros H; [reflexivity|].
  apply orb_false_iff in H as [Hc Hr].
  rewrite Hc, (IH Hr). reflexivity.
Qed.

(** A process that prints [N] lines is read as [N] lines. *)
Lemma lines_of_emitted ls :
  Forall (fun l => PyStr.mem "010"%char l = false) ls ->
  lines_of (emitted_text ls)
  = map (fun l => (l ++ String "010"%char "")%string) ls.
Proof.
  induction 1 as [|l r Hl Hr IH]; [reflexivity|].
  unfold emitted_text in *. cbn [map]. rewrite join_empty_cons.
  rewrite PyStrFacts.app_assoc. cbn [String.append].
  rewrite lines_of_unfold.
  assert (Ht : PyStr.truthy
                 (l ++ String "010"%char
                         (PyStr.join ""
                            (map (fun l0 => (l0 ++ String "010"%char "")%string)
                               r))) = true)
    by (destruct l; reflexivity).
  rewrite Ht, (readline_line _ _ Hl). cbn [fst snd]. now rewrite IH.
Qed.

(** What the consumer is called with for a printed line: the line less
    its trailing white space. *)
Lemma rstrip_emitted ls :
  map PyStr.rstrip (map (fun l => (l ++ String "010"%char "")%string) ls)
  = map PyStr.rstrip ls.
Proof.
  rewrite map_map. apply map_ext. intros l.
  apply PyStrFacts.rstrip_app_space. reflexivity.
Qed.

(** *** The read loop under a consumer that does not raise *)

Section Loop.

Variable S : Type.
Variable output_callback : string -> M S unit.
Hypothesis quiet : never_raises output_callback.

Lemma callback_step a st :
  output_callback a st = (Ok tt, snd (output_callback a st)).
Proof.
  specialize (quiet a st). destruct (output_callback a st) as [r st'].
  simpl in *. now subst.
Qed.

Lemma stream_loop_quiet lines :
  forall stdout_lines st,
    Forall (fun l => PyStr.truthy l = true) lines ->
    stream_loop output_callback lines stdout_lines st
    = (Ok (stdout_lines ++ lines),
       deliver output_callback (map PyStr.rstrip lines) st).
Proof.
  induction lines as [|line rest IH]; intros acc st HF; simpl.
  - now rewrite app_nil_r.
  - inversion HF as [|? ? Hl Hr]; subst. rewrite Hl.
    unfold bindM. rewrite callback_step.
    rewrite IH by assumption. unfold deliver; simpl.
    now rewrite <- app_assoc.
Qed.

(** The whole run, once the process has started. *)
Lemma run_command_stream_quiet host command cwd st process :
  Popen host command cwd = Ok process ->
  run_command_stream host command output_callback cwd st
  = (Ok (outcome process),
     deliver output_callback
       (map PyStr.rstrip (lines_of (pipe_text process)))
       (noting command st)).
Proof.
  intros HP.
  unfold run_command_stream, try_exceptM, bindM, spawn, end_of_pipe, outcome.
  rewrite HP. rewrite stream_loop_quiet by apply lines_of_truthy.
  destruct (pipe_fault process); cbn [ret raise app].
  - reflexivity.
  - rewrite join_lines_of. reflexivity.
Qed.

(** The run when the process cannot be started: the failure comes
    back as a result and the consumer is not called. *)
Lemma run_command_stream_spawn_failure host command cwd st e :
  Popen host command cwd = Raise e ->
  run_command_stream host command output_callback cwd st
  = (Ok {| return_code := -1; stdout := ""; stderr := str_exn e;
           success := false |},
     noting command st).
Proof.
  intros HP. unfold run_command_stream, try_exceptM, bindM, spawn.
  rewrite HP. reflexivity.
Qed.

End Loop.

Lemma recorder_quiet : never_raises recorder.
Proof. intros a st. reflexivity. Qed.

Lemma deliver_recorder args :
  forall st,
    deliver recorder args st
    = {| popen_calls := popen_calls st; user := user st ++ args |}.
Proof.
  induction args as [|a r IH]; intros st; simpl.
  - rewrite app_nil_r. destruct st; reflexivity.
  - unfold deliver in *. simpl. rewrite IH. simpl.
    now rewrite <- app_assoc.
Qed.

(** A process that starts, prints the [N] newline-free lines [ls] and
    exits: the recording consumer has seen exactly those [N] lines, in
    order, each less its trailing white space. *)
Lemma stream_of_emitted_lines host command cwd seen ls fault rc :
  Forall (fun l => PyStr.mem "010"%char l = false) ls ->
  Popen host command cwd
  = Ok {| pipe_text := emitted_text ls; pipe_fault := fault;
          returncode := rc |} ->
  user (snd (run_command_stream host command recorder cwd seen))
  = user seen ++ map PyStr.rstrip ls
  /\ length (map PyStr.rstrip ls) = length ls.
Proof.
  intros Hls HP. split; [|apply length_map].
  rewrite (run_command_stream_quiet _ recorder recorder_quiet
             host command cwd seen _ HP).
  cbn [snd pipe_text]. rewrite deliver_recorder. cbn [user].
  now rewrite (lines_of_emitted ls Hls), rstrip_emitted.
Qed.

(** The text of a time-out after thirty seconds. *)
Example timeout_message :
  fmt_timeout (Some 30%Z) = "30"
  /\ ("Command timed out after " ++ fmt_timeout (Some 30%Z) ++ " seconds")%string
     = "Command timed out after 30 seconds".
Proof. split; reflexivity. Qed.

End ShellFacts.

(* ------------------------------------------------------------------ *)
(** ** Properties of the build worker *)

Module BuilderFacts.
Import Builder.

Lemma finished_app sigs sigs' :
  finished (sigs ++ sigs') = finished sigs ++ finished sigs'.
Proof.
  induction sigs as [|s r IH]; simpl; [reflexivity|].
  destruct s; simpl; now rewrite IH.
Qed.

Section Run.

Variable host : Host.
Variable cancel_after : option nat.
Variable start_time finish_time : Z.

Lemma cancel_observed_mono n :
  cancel_observed cancel_after n = true ->
  cancel_observed cancel_after (S n) = true.
Proof.
  unfold cancel_observed. destruct cancel_after as [k|]; [|discriminate].
  rewrite !Nat.leb_le. lia.
Qed.

(** A read of the flag tells whether the call has landed. *)
Lemma read_cancelled_tracks cfg py calls fin n st :
  tracks cancel_after cfg py calls fin n st ->
  fst (read_cancelled cancel_after st)
    = Ok (cancel_observed cancel_after n)
  /\ tracks cancel_after cfg py calls fin (S n) (snd (read_cancelled cancel_after st))
  /\ emitted (user (snd (read_cancelled cancel_after st)))
     = emitted (user st).
Proof.
  intros [Hc Hp Hcalls Hf Hn Hfl].
  unfold read_cancelled, other_thread.
  destruct st as [pc self]; simpl in *. subst n.
  unfold cancel_observed in *.
  destruct cancel_after as [k|].
  - destruct (k <=? flag_reads self)%nat eqn:E; simpl.
    + repeat split; simpl; auto.
      intros _. apply Nat.leb_le. apply Nat.leb_le in E. lia.
    + destruct (_cancelled self) eqn:Ec.
      * specialize (Hfl eq_refl). discriminate.
      * repeat split; simpl; auto; discriminate.
  - destruct (_cancelled self) eqn:Ec.
    + specialize (Hfl eq_refl). discriminate.
    + repeat split; simpl; auto.
Qed.

Lemma emit_tracks_line cfg py calls fin n st line :
  tracks cancel_after cfg py calls fin n st ->
  tracks cancel_after cfg py calls fin n (snd (emit (output_line line) st)).
Proof.
  intros [Hc Hp Hcalls Hf Hn Hfl]. destruct st as [pc self].
  constructor; simpl in *; auto.
  rewrite finished_app, Hf. simpl. apply app_nil_r.
Qed.

Lemma output_callback_quiet :
  Shell.never_raises (output_callback cancel_after).
Proof.
  intros a st. unfold output_callback, bindM, read_cancelled.
  simpl. destruct (_cancelled _); reflexivity.
Qed.

Lemma output_callback_tracks cfg py calls fin n st line :
  tracks cancel_after cfg py calls fin n st ->
  tracks cancel_after cfg py calls fin (S n)
    (snd (output_callback cancel_after line st)).
Proof.
  intros Ht.
  destruct (read_cancelled_tracks cfg py calls fin n st Ht)
    as [Hr [Ht' _]].
  unfold output_callback, bindM.
  destruct (read_cancelled cancel_after st) as [r st'].
  simpl in Hr, Ht'. subst r.
  destruct (cancel_observed cancel_after n); simpl.
  - exact Ht'.
  - apply emit_tracks_line. exact Ht'.
Qed.

Lemma deliver_tracks cfg py calls fin args :
  forall n st,
    tracks cancel_after cfg py calls fin n st ->
    tracks cancel_after cfg py calls fin (n + length args)
      (Shell.deliver (output_callback cancel_after) args st).
Proof.
  induction args as [|a r IH]; intros n st Ht; simpl.
  - now rewrite Nat.add_0_r.
  - unfold Shell.deliver in *. simpl.
    replace (n + S (length r)) with (S n + length r) by lia.
    apply IH. apply output_callback_tracks. exact Ht.
Qed.

(** The runner under the worker's consumer: its result, and what it
    leaves fixed. *)
Lemma stream_tracks cfg py cmd :
  fst (Shell.run_command_stream host cmd (output_callback cancel_after)
         (working_dir host cfg) (at_spawn host cfg py cmd))
    = Ok (stream_result host cfg cmd)
  /\ tracks cancel_after cfg (python_path (init host cfg py)) [cmd] []
       (lines_drained host cfg cmd)
       (snd (Shell.run_command_stream host cmd
               (output_callback cancel_after)
               (working_dir host cfg) (at_spawn host cfg py cmd))).
Proof.
  assert (H0 : tracks cancel_after cfg (python_path (init host cfg py)) [cmd] [] 0
                 (Shell.noting cmd (at_spawn host cfg py cmd))).
  { constructor; simpl; auto. discriminate. }
  unfold stream_result, lines_drained.
  destruct (Popen host cmd (working_dir host cfg)) as [process | e] eqn:HP.
  - rewrite (ShellFacts.run_command_stream_quiet _ _
               output_callback_quiet host cmd _ _ _ HP).
    split; [reflexivity|]. simpl.
    rewrite <- (length_map PyStr.rstrip).
    apply (deliver_tracks cfg _ [cmd] [] _ 0). exact H0.
  - rewrite (ShellFacts.run_command_stream_spawn_failure _
               (output_callback cancel_after) host cmd _ _ e HP).
    split; [reflexivity|]. exact H0.
Qed.

(** A build whose command is built starts exactly that command and
    emits exactly one result, the verdict. *)
Lemma build_with_command cfg py cmd :
  CommandBuilder._build_command (sys_platform host) (path_exists host)
    (python_path (init host cfg py)) cfg = Ok cmd ->
  popen_calls (build host cancel_after start_time finish_time cfg py)
    = [cmd]
  /\ finished (emitted (user (build host cancel_after start_time
                                finish_time cfg py)))
     = [verdict host cancel_after start_time finish_time cfg cmd].
Proof.
  intros Hcmd.
  destruct (stream_tracks cfg py cmd) as [Hres Htr].
  unfold build, run, try_exceptM, bindM, _build_command, get_user.
  cbn [emit modify_user initial_state user popen_calls init
       config python_path _cancelled flag_reads emitted app fst snd].
  cbn [init python_path] in Hcmd. rewrite Hcmd.
  cbn [emit modify_user initial_state user popen_calls
       config python_path _cancelled flag_reads emitted app fst snd].
  change {| popen_calls := [];
            user := {| config := cfg;
                       python_path := match py with
                                      | Some p => if PyStr.truthy p then p
                                                  else sys_executable host
                                      | None => sys_executable host
                                      end;
                       _cancelled := false; flag_reads := 0;
                       emitted :=
                         [status_changed "Preparing build...";
                          output_line (">>> " ++ PyStr.join " " cmd
                                       ++ String "010"%char "");
                          status_changed "Building..."] |} |}
    with (at_spawn host cfg py cmd).
  destruct (Shell.run_command_stream host cmd
              (output_callback cancel_after) (working_dir host cfg)
              (at_spawn host cfg py cmd)) as [r st1].
  cbn [fst snd] in Hres, Htr. subst r.
  destruct (read_cancelled_tracks _ _ _ _ _ st1 Htr) as [Hc [Htr2 _]].
  destruct (read_cancelled cancel_after st1) as [c st2].
  cbn [fst snd] in Hc, Htr2. subst c.
  destruct Htr2 as [_ _ Hcalls Hfin _ _].
  unfold verdict.
  destruct (cancel_observed cancel_after (lines_drained host cfg cmd));
    [|destruct (Shell.success (stream_result host cfg cmd))];
    cbn [emit modify_user snd user popen_calls emitted];
    rewrite finished_app, Hfin; split; auto.
Qed.

(** A build without a script path starts nothing and reports the
    builder's error. *)
Lemma build_without_script cfg py :
  script_path cfg = "" ->
  build host cancel_after start_time finish_time cfg py
  = {| popen_calls := [];
       user := {| config := cfg;
                  python_path := python_path (init host cfg py);
                  _cancelled := false; flag_reads := 0;
                  emitted :=
                    [status_changed "Preparing build...";
                     build_finished
                       {| status := FAILED; output_path := None;
                          error_message := "Script path is required";
                          build_time := (finish_time - start_time)%Z |}]
               |} |}.
Proof.
  intros Hs.
  unfold build, run, try_exceptM, bindM, _build_command,
    CommandBuilder._build_command.
  cbn [emit modify_user initial_state user popen_calls init
       config python_path _cancelled flag_reads emitted app fst snd].
  rewrite Hs. reflexivity.
Qed.

End Run.

End BuilderFacts.

(* ------------------------------------------------------------------ *)
(** ** Properties of the plugin registry *)

Module PluginFacts.
Import PluginLoader.

Section Three.

Variable Context : Type.
Variables p1 p2 p3 : Plugin Context.

Hypothesis distinct12 : NAME p1 <> NAME p2.
Hypothesis distinct13 : NAME p1 <> NAME p3.
Hypothesis distinct23 : NAME p2 <> NAME p3.

(** Three plugins with three names make three entries, in
    registration order. *)
Lemma register_three :
  register (register (register [] p1) p2) p3
  = [(NAME p1, p1); (NAME p2, p2); (NAME p3, p3)].
Proof.
  unfold register; simpl.
  apply String.eqb_neq in distinct12, distinct13, distinct23.
  rewrite distinct12. simpl. rewrite distinct13, distinct23. reflexivity.
Qed.

Lemma get_plugin_three :
  let plugins := [(NAME p1, p1); (NAME p2, p2); (NAME p3, p3)] in
  get_plugin plugins (NAME p1) = Some p1
  /\ get_plugin plugins (NAME p2) = Some p2
  /\ get_plugin plugins (NAME p3) = Some p3.
Proof.
  unfold get_plugin; simpl.
  apply String.eqb_neq in distinct12, distinct13, distinct23.
  rewrite !String.eqb_refl, distinct12, distinct13, distinct23.
  auto.
Qed.

Lemma results_three b1 b2 b3 :
  dict_set (dict_set (dict_set ([] : dict bool) (NAME p1) b1)
              (NAME p2) b2) (NAME p3) b3
  = [(NAME p1, b1); (NAME p2, b2); (NAME p3, b3)].
Proof.
  simpl.
  apply String.eqb_neq in distinct12, distinct13, distinct23.
  rewrite distinct12. simpl. rewrite distinct13, distinct23. reflexivity.
Qed.

End Three.

End PluginFacts.
(** C1. For the configuration [{script_path: "app.py", one_file: true,
    console_mode: false, clean_build: true, output_dir: "out"}], on any
    platform, with any interpreter and any file system, the command
    builder returns the interpreter prefix followed by exactly
    [--onefile --noconsole --clean --noconfirm --distpath out app.py];
    the script path is the last element. *)
Theorem example_command_suffix :
  forall sys_platform path_exists python_path,
    CommandBuilder._build_command sys_platform path_exists python_path example_config
    = Ok ([python_path; "-m"; "PyInstaller"]
          ++ ["--onefile"; "--noconsole"; "--clean"; "--noconfirm";
              "--distpath"; "out"; "app.py"])
    /\ last ([python_path; "-m"; "PyInstaller"]
          ++ ["--onefile"; "--noconsole"; "--clean"; "--noconfirm";
              "--distpath"; "out"; "app.py"]) "" = script_path example_config.
Proof.
  intros; split; reflexivity.
Qed.


(** C9, as stated, fails: with [one_file] set and the extra-argument
    string ["--onedir"], the script path being non-empty, the vector
    contains both ["--onefile"] and ["--onedir"]. *)
Lemma onedir_beside_onefile :
  script_path onefile_with_onedir_extra <> ""
  /\ one_file onefile_with_onedir_extra = true
  /\ CommandBuilder._build_command "linux" (fun _ => false) "python"
       onefile_with_onedir_extra
     = Ok ["python"; "-m"; "PyInstaller"; "--onefile"; "--clean";
           "--noconfirm"; "--onedir"; "app.py"]
  /\ In "--onedir" ["python"; "-m"; "PyInstaller"; "--onefile"; "--clean";
                    "--noconfirm"; "--onedir"; "app.py"].
Proof.
  repeat split; try reflexivity; try discriminate.
  simpl; tauto.
Qed.

(** C9, amended. For every configuration with a non-empty script path
    the builder returns a vector; if [one_file] is set it contains
    ["--onefile"], and it contains ["--onedir"] only when one of the
    caller's own values (interpreter path, output directory, name,
    icon, a trimmed hidden import or excluded module, a rewritten
    data-file entry, a token of the extra arguments, the script path) is
    that very string; and the same with the two flags exchanged when
    [one_file] is not set. *)
Theorem mode_flag_exclusive :
  forall sys_platform path_exists python_path config,
    script_path config <> "" ->
    exists cmd,
      CommandBuilder._build_command sys_platform path_exists python_path config
      = Ok cmd
      /\ (one_file config = true ->
          In "--onefile" cmd
          /\ (~ In "--onedir"
                (CommandBuilder.caller_values sys_platform python_path config)
              -> ~ In "--onedir" cmd))
      /\ (one_file config = false ->
          In "--onedir" cmd
          /\ (~ In "--onefile"
                (CommandBuilder.caller_values sys_platform python_path config)
              -> ~ In "--onefile" cmd)).
Proof.
  intros plat ex py config Hs.
  destruct (CommandBuilderFacts.build_command_ok plat ex py config Hs)
    as [cmd Hcmd].
  exists cmd. split; [exact Hcmd|].
  assert (Hflag : In (if one_file config then "--onefile" else "--onedir") cmd).
  { revert Hcmd. unfold CommandBuilder._build_command.
    destruct (PyStr.truthy (script_path config)); simpl; [|discriminate].
    intros E; injection E as <-.
    destruct (one_file config); simpl; auto. }
  split; intros Hof; rewrite Hof in Hflag; (split; [exact Hflag|]);
    intros Hvals Hin;
    destruct (CommandBuilderFacts.build_command_elements
                plat ex py config cmd _ Hcmd Hin) as [Hown | Huser];
    try (apply Hvals; exact Huser);
    rewrite Hof in Hown; simpl in Hown;
    decompose [or] Hown; try discriminate; try contradiction.
Qed.

Lemma mode_flag_exclusive_witness :
  exists cmd,
    CommandBuilder._build_command "linux" (fun _ => false) "python"
      example_config = Ok cmd
    /\ In "--onefile" cmd /\ ~ In "--onedir" cmd.
Proof.
  destruct (mode_flag_exclusive "linux" (fun _ => false) "python"
              example_config) as [cmd [Hc [Ht _]]].
  - discriminate.
  - exists cmd. split; [exact Hc|].
    destruct (Ht eq_refl) as [H1 H2]. split; [exact H1|].
    apply H2. simpl.
    intros H; decompose [or] H; try discriminate; try contradiction.
Defined.

(** C5, as stated, fails twice over.  Away from Windows an entry whose
    destination holds a second [;] has both rewritten; and on any
    platform white space around the entry is cut off, so a source that
    starts with a blank is not emitted unchanged. *)
Lemma add_data_rewrites_more :
  CommandBuilder.add_data_args "linux" ["a" ++ ";" ++ "b;c"]%string
    = ["--add-data"; "a:b:c"]
  /\ ("a" ++ CommandBuilder.path_sep "linux" ++ "b;c")%string <> "a:b:c"
  /\ CommandBuilder.add_data_args "win32" [" a" ++ ";" ++ "b"]%string
    = ["--add-data"; "a;b"]
  /\ (" a" ++ CommandBuilder.path_sep "win32" ++ "b")%string <> "a;b".
Proof.
  repeat split; try reflexivity; discriminate.
Qed.

Lemma add_data_args_app sys_platform xs ys :
  CommandBuilder.add_data_args sys_platform (xs ++ ys)
  = CommandBuilder.add_data_args sys_platform xs
    ++ CommandBuilder.add_data_args sys_platform ys.
Proof.
  induction xs as [|x r IH]; [reflexivity|].
  cbn [app CommandBuilder.add_data_args].
  destruct (PyStr.truthy (PyStr.strip x)); cbn [app]; now rewrite IH.
Qed.

(** C5, amended. Take any configuration with a script path and any
    entry [src;dest] of its data files, wherever it stands in the list.
    The vector the builder returns carries, after the arguments of the
    entries before it and before those of the entries after it (which
    the extra arguments and the script path follow), the flag
    [--add-data] and one argument for the entry: the entry trimmed of
    the white space around it, with every [;] replaced by the
    platform's list separator.  When neither [src] nor [dest] contains
    a [;] and the entry has no white space around it, that argument is
    [src], the platform's separator, [dest]: one replacement, both
    parts unchanged. *)
Theorem add_data_entry :
  forall sys_platform path_exists python_path config before after src dest,
    script_path config <> "" ->
    data_files config = before ++ (src ++ ";" ++ dest)%string :: after ->
    exists head,
      CommandBuilder._build_command sys_platform path_exists python_path config
      = Ok (head
            ++ CommandBuilder.add_data_args sys_platform before
            ++ ["--add-data";
                PyStr.replace ";"%char (CommandBuilder.path_sep sys_platform)
                  (PyStr.strip (src ++ ";" ++ dest))]
            ++ CommandBuilder.add_data_args sys_platform after
            ++ (if PyStr.truthy (additional_args config)
                then PyStr.split (additional_args config) else [])
            ++ [script_path config])
      /\ (PyStr.mem ";"%char src = false ->
          PyStr.mem ";"%char dest = false ->
          PyStr.strip (src ++ ";" ++ dest) = (src ++ ";" ++ dest)%string ->
          PyStr.replace ";"%char (CommandBuilder.path_sep sys_platform)
            (PyStr.strip (src ++ ";" ++ dest))
          = (src ++ CommandBuilder.path_sep sys_platform ++ dest)%string).
Proof.
  intros plat ex py config before after src dest Hs Hd.
  assert (Hnb : PyStr.truthy (PyStr.strip (src ++ ";" ++ dest)) = true).
  { rewrite PyStrFacts.truthy_strip.
    apply PyStrFacts.has_nonspace_app. reflexivity. }
  exists ([py; "-m"; "PyInstaller"]
          ++ (if one_file config then ["--onefile"] else ["--onedir"])
          ++ (if negb (console_mode config) then ["--noconsole"] else [])
          ++ (if clean_build config then ["--clean"] else [])
          ++ ["--noconfirm"]
          ++ (if PyStr.truthy (output_dir config)
              then ["--distpath"; output_dir config] else [])
          ++ (if PyStr.truthy (app_name config)
              then ["--name"; app_name config] else [])
          ++ (if PyStr.truthy (icon_path config) && ex (icon_path config)
              then ["--icon"; icon_path config] else [])
          ++ CommandBuilder.flag_per_entry "--hidden-import"
               (hidden_imports config)
          ++ CommandBuilder.flag_per_entry "--exclude-module"
               (exclude_modules config)).
  split.
  - unfold CommandBuilder._build_command.
    destruct (script_path config) as [|c r] eqn:E; [congruence|].
    cbn [PyStr.truthy negb]. rewrite Hd, add_data_args_app.
    cbn [CommandBuilder.add_data_args]. rewrite Hnb.
    unfold CommandBuilder.normalized.
    rewrite <- !app_assoc. cbn [app]. reflexivity.
  - intros Hsrc Hdest Hstrip. rewrite Hstrip.
    change (src ++ ";" ++ dest)%string
      with (src ++ String ";"%char dest)%string.
    rewrite PyStrFacts.replace_separator by assumption. reflexivity.
Qed.

Lemma add_data_entry_witness :
  exists head,
    CommandBuilder._build_command "linux" (fun _ => false) "python" data_config
    = Ok (head
          ++ CommandBuilder.add_data_args "linux" ["x;y"]
          ++ ["--add-data";
              PyStr.replace ";"%char (CommandBuilder.path_sep "linux")
                (PyStr.strip ("assets/icon.png" ++ ";" ++ "assets"))]
          ++ CommandBuilder.add_data_args "linux" ["  "]
          ++ (if PyStr.truthy (additional_args data_config)
              then PyStr.split (additional_args data_config) else [])
          ++ [script_path data_config])
    /\ PyStr.replace ";"%char (CommandBuilder.path_sep "linux")
         (PyStr.strip ("assets/icon.png" ++ ";" ++ "assets"))
       = "assets/icon.png:assets".
Proof.
  assert (Hs : script_path data_config <> "") by discriminate.
  destruct (add_data_entry "linux" (fun _ => false) "python" data_config
              ["x;y"] ["  "] "assets/icon.png" "assets" Hs eq_refl)
    as [head [Hcmd Hshape]].
  exists head. split; [exact Hcmd|exact (Hshape eq_refl eq_refl eq_refl)].
Defined.

(** C2, as stated, fails three times over.  The process emits the one
    line ["a "] and exits with 0: the consumer is called with ["a"],
    not with the line less its newline; and a consumer that raises on
    that line makes the result a failure.  A process that exits with 0
    after a line and a byte that cannot be decoded: the consumer, which
    does not raise, sees the line, and the result is a failure all the
    same. *)
Lemma stream_strips_more_than_newline :
  Shell.lines_of ("a " ++ String "010"%char "")
    = [("a " ++ String "010"%char "")%string]
  /\ Shell.without_newline ("a " ++ String "010"%char "") = "a "
  /\ user (snd (Shell.run_command_stream blank_ended_host ["tool"]
                  Shell.recorder None (initial_state [])))
     = ["a"]
  /\ fst (Shell.run_command_stream blank_ended_host ["tool"]
            Shell.failing_consumer None (initial_state tt))
     = Ok {| Shell.return_code := -1; Shell.stdout := "";
             Shell.stderr := "consumer failed"; Shell.success := false |}
  /\ Shell.run_command_stream undecodable_host ["tool"]
       Shell.recorder None (initial_state [])
     = (Ok {| Shell.return_code := -1; Shell.stdout := "";
              Shell.stderr := "'charmap' codec can't decode byte 0x81";
              Shell.success := false |},
        {| popen_calls := [["tool"]]; user := ["building"] |}).
Proof.
  repeat split; reflexivity.
Qed.

(** C2, amended. For every streaming run whose process starts, emits
    the text [pipe], which is read to its end without an error, and
    exits with code 0, and whose consumer raises on no line: the
    consumer is called once per line of the text, in order, each time
    with the line stripped of all its trailing white space (the newline
    included), and then the run returns the result with exit code 0,
    the whole text as [stdout], an empty [stderr] and [success = true].
    For the consumer that only records its arguments, the record grows
    by exactly one entry per line. *)
Theorem stream_delivers_every_line :
  forall (S : Type) (host : Host) (command : list string)
         (output_callback : string -> M S unit) (cwd : option string)
         (st : State S) (pipe : string),
    Popen host command cwd
    = Ok {| pipe_text := pipe; pipe_fault := None; returncode := 0 |} ->
    Shell.never_raises output_callback ->
    Shell.run_command_stream host command output_callback cwd st
    = (Ok {| Shell.return_code := 0; Shell.stdout := pipe;
             Shell.stderr := ""; Shell.success := true |},
       Shell.deliver output_callback
         (map PyStr.rstrip (Shell.lines_of pipe))
         (Shell.noting command st))
    /\ (forall seen : State (list string),
          user (snd (Shell.run_command_stream host command
                       Shell.recorder cwd seen))
          = user seen ++ map PyStr.rstrip (Shell.lines_of pipe)
          /\ length (map PyStr.rstrip (Shell.lines_of pipe))
             = length (Shell.lines_of pipe)).
Proof.
  intros S host command cb cwd st pipe HP Hq. split.
  - rewrite (ShellFacts.run_command_stream_quiet S cb Hq host command cwd st
               _ HP). reflexivity.
  - intros seen. split; [|apply length_map].
    rewrite (ShellFacts.run_command_stream_quiet _ Shell.recorder
               ShellFacts.recorder_quiet host command cwd seen _ HP).
    cbn [snd pipe_text]. rewrite ShellFacts.deliver_recorder. reflexivity.
Qed.

Lemma stream_delivers_every_line_witness :
  Shell.run_command_stream blank_ended_host ["tool"] Shell.recorder None
    (initial_state [])
  = (Ok {| Shell.return_code := 0;
           Shell.stdout := "a " ++ String "010"%char "";
           Shell.stderr := ""; Shell.success := true |},
     Shell.deliver Shell.recorder
       (map PyStr.rstrip (Shell.lines_of ("a " ++ String "010"%char "")))
       (Shell.noting ["tool"] (initial_state []))).
Proof.
  exact (proj1 (stream_delivers_every_line (list string)
                  blank_ended_host ["tool"] Shell.recorder None
                  (initial_state []) ("a " ++ String "010"%char "")
                  eq_refl ShellFacts.recorder_quiet)).
Defined.

(** C7. A buffered run never raises, whatever [subprocess.run] does.
    When the command completes, the result carries its exit code and
    both outputs; when the time limit is exceeded, the result is the
    failure with exit code -1, the output read so far and the text
    "Command timed out after <timeout> seconds" as [stderr]; on any
    other exception (the command cannot be started, permission is
    denied, ...) the result is the failure with exit code -1, empty
    [stdout] and the exception's text as [stderr]. *)
Theorem run_command_never_raises :
  forall (host : Host) (command : list string) (cwd : option string)
         (timeout : option Z),
    exists r : Shell.ProcessResult,
      Shell.run_command host command cwd timeout = Ok r
      /\ match subprocess_run host command cwd timeout with
         | Ok done =>
             r = {| Shell.return_code := cp_returncode done;
                    Shell.stdout := cp_stdout done;
                    Shell.stderr := cp_stderr done;
                    Shell.success := Z.eqb (cp_returncode done) 0 |}
         | Raise (TimeoutExpired out) =>
             r = {| Shell.return_code := -1;
                    Shell.stdout := Shell.or_empty out;
                    Shell.stderr := ("Command timed out after "
                                     ++ Shell.fmt_timeout timeout
                                     ++ " seconds")%string;
                    Shell.success := false |}
         | Raise e =>
             r = {| Shell.return_code := -1; Shell.stdout := "";
                    Shell.stderr := str_exn e; Shell.success := false |}
         end.
Proof.
  intros host command cwd timeout. unfold Shell.run_command.
  destruct (subprocess_run host command cwd timeout) as [done | e]; simpl.
  - eexists; split; reflexivity.
  - destruct e; eexists; split; reflexivity.
Qed.

(** C3. Take any build whose command could be built, so that a process
    is started and its output drained, and in which [cancel()] has
    landed by the read of the flag that follows the draining.  Whatever
    the process printed and whatever its exit code (or if it could not
    be started at all), exactly one result is emitted and it is
    [Cancelled], with no output path and no error message. *)
Theorem cancelled_build_is_cancelled :
  forall (host : Host) (cancel_after : option nat) (start_time finish_time : Z)
         (cfg : BuildConfig) (py : option string) (cmd : list string),
    CommandBuilder._build_command (sys_platform host) (path_exists host)
      (Builder.python_path (Builder.init host cfg py)) cfg = Ok cmd ->
    Builder.cancel_observed cancel_after (Builder.lines_drained host cfg cmd)
      = true ->
    Builder.finished
      (Builder.emitted
         (user (Builder.build host cancel_after start_time finish_time cfg py)))
    = [ {| Builder.status := Builder.CANCELLED;
           Builder.output_path := None;
           Builder.error_message := "";
           Builder.build_time := (finish_time - start_time)%Z |} ].
Proof.
  intros host ca t0 t1 cfg py cmd Hcmd Hobs.
  destruct (BuilderFacts.build_with_command host ca t0 t1 cfg py cmd Hcmd)
    as [_ Hfin].
  rewrite Hfin. unfold Builder.verdict. rewrite Hobs. reflexivity.
Qed.

Lemma cancelled_build_is_cancelled_witness :
  Builder.finished
    (Builder.emitted
       (user (Builder.build failing_build_host (Some 0) 10 25
                example_config None)))
  = [ {| Builder.status := Builder.CANCELLED;
         Builder.output_path := None;
         Builder.error_message := "";
         Builder.build_time := 15%Z |} ].
Proof.
  exact (cancelled_build_is_cancelled failing_build_host (Some 0) 10 25
           example_config None
           ["python"; "-m"; "PyInstaller"; "--onefile"; "--noconsole";
            "--clean"; "--noconfirm"; "--distpath"; "out"; "app.py"]
           eq_refl eq_refl).
Defined.

(** C4. For every configuration whose script path is empty: the command
    builder raises the configuration error "Script path is required"
    instead of returning a vector; the build calls [Popen] not once;
    and the one result it emits is [Failed] with that text as its error
    message. *)
Theorem empty_script_path_fails :
  forall (host : Host) (cancel_after : option nat) (start_time finish_time : Z)
         (cfg : BuildConfig) (py : option string),
    script_path cfg = "" ->
    (forall sys_platform path_exists python_path,
        CommandBuilder._build_command sys_platform path_exists python_path cfg
        = Raise (ValueError "Script path is required"))
    /\ popen_calls
         (Builder.build host cancel_after start_time finish_time cfg py) = []
    /\ Builder.finished
         (Builder.emitted
            (user (Builder.build host cancel_after start_time finish_time
                     cfg py)))
       = [ {| Builder.status := Builder.FAILED;
              Builder.output_path := None;
              Builder.error_message := "Script path is required";
              Builder.build_time := (finish_time - start_time)%Z |} ].
Proof.
  intros host ca t0 t1 cfg py Hs. split; [|split].
  - intros plat ex pyth. unfold CommandBuilder._build_command.
    rewrite Hs. reflexivity.
  - rewrite (BuilderFacts.build_without_script host ca t0 t1 cfg py Hs).
    reflexivity.
  - rewrite (BuilderFacts.build_without_script host ca t0 t1 cfg py Hs).
    reflexivity.
Qed.

Lemma empty_script_path_fails_witness :
  popen_calls (Builder.build failing_build_host None 10 25
                 default_BuildConfig None) = []
  /\ Builder.finished
       (Builder.emitted
          (user (Builder.build failing_build_host None 10 25
                   default_BuildConfig None)))
     = [ {| Builder.status := Builder.FAILED;
            Builder.output_path := None;
            Builder.error_message := "Script path is required";
            Builder.build_time := 15%Z |} ].
Proof.
  exact (proj2 (empty_script_path_fails failing_build_host None 10 25
                  default_BuildConfig None eq_refl)).
Defined.

(** C10, as stated, fails three times over.  A process that starts,
    with a consumer that raises on its first line: the result's
    [stderr] is the consumer's error text, not empty.  A process that
    starts and whose output cannot be decoded, with a consumer that
    does not raise: [stderr] is the text of the decoding error, and a
    build whose process so exits with 1 reports that text, not "Build
    failed".  A build whose process exits with 1 but which has been
    cancelled: the result emitted is [Cancelled] with an empty error
    message. *)
Lemma stderr_not_always_empty :
  (exists process r,
      Popen blank_ended_host ["tool"] None = Ok process
      /\ fst (Shell.run_command_stream blank_ended_host ["tool"]
                Shell.failing_consumer None (initial_state tt)) = Ok r
      /\ Shell.stderr r = "consumer failed")
  /\ (exists process r,
        Popen undecodable_host ["tool"] None = Ok process
        /\ fst (Shell.run_command_stream undecodable_host ["tool"]
                  Shell.recorder None (initial_state [])) = Ok r
        /\ Shell.stderr r = "'charmap' codec can't decode byte 0x81")
  /\ (exists process,
        Popen garbled_failing_host
          ["python"; "-m"; "PyInstaller"; "--onefile"; "--noconsole";
           "--clean"; "--noconfirm"; "--distpath"; "out"; "app.py"]
          (Builder.working_dir garbled_failing_host example_config)
        = Ok process
        /\ returncode process = 1%Z)
  /\ map Builder.error_message
       (Builder.finished
          (Builder.emitted
             (user (Builder.build garbled_failing_host None 10 25
                      example_config None))))
     = ["'charmap' codec can't decode byte 0x81"]
  /\ (exists process,
        Popen failing_build_host
          ["python"; "-m"; "PyInstaller"; "--onefile"; "--noconsole";
           "--clean"; "--noconfirm"; "--distpath"; "out"; "app.py"]
          (Builder.working_dir failing_build_host example_config)
        = Ok process
        /\ returncode process = 1%Z)
  /\ map Builder.error_message
       (Builder.finished
          (Builder.emitted
             (user (Builder.build failing_build_host (Some 0) 10 25
                      example_config None))))
     = [""].
Proof.
  split; [eexists; eexists; repeat split; reflexivity|].
  split; [eexists; eexists; repeat split; reflexivity|].
  split; [eexists; split; reflexivity|].
  split; [reflexivity|].
  split; [eexists; split; reflexivity|]. reflexivity.
Qed.

(** C10, amended. For every streaming run in which the process starts,
    its output is read to the end without an error and the consumer
    raises on no line, the result has an empty [stderr].  Consequently
    every build that is not cancelled and whose process starts, has its
    output read without an error and exits with a code other than 0
    emits exactly one result, [Failed], whose error message is "Build
    failed". *)
Theorem failed_build_message_is_generic :
  (forall (S : Type) (host : Host) (command : list string)
          (output_callback : string -> M S unit) (cwd : option string)
          (st : State S) (process : Process),
      Popen host command cwd = Ok process ->
      pipe_fault process = None ->
      Shell.never_raises output_callback ->
      exists r,
        fst (Shell.run_command_stream host command output_callback cwd st)
        = Ok r
        /\ Shell.stderr r = "")
  /\ (forall (host : Host) (cancel_after : option nat)
             (start_time finish_time : Z) (cfg : BuildConfig)
             (py : option string) (cmd : list string) (process : Process),
        CommandBuilder._build_command (sys_platform host) (path_exists host)
          (Builder.python_path (Builder.init host cfg py)) cfg = Ok cmd ->
        Popen host cmd (Builder.working_dir host cfg) = Ok process ->
        pipe_fault process = None ->
        returncode process <> 0%Z ->
        Builder.cancel_observed cancel_after
          (Builder.lines_drained host cfg cmd) = false ->
        Builder.finished
          (Builder.emitted
             (user (Builder.build host cancel_after start_time finish_time
                      cfg py)))
        = [ {| Builder.status := Builder.FAILED;
               Builder.output_path := None;
               Builder.error_message := "Build failed";
               Builder.build_time := (finish_time - start_time)%Z |} ]).
Proof.
  split.
  - intros S host command cb cwd st process HP Hf Hq.
    rewrite (ShellFacts.run_command_stream_quiet S cb Hq host command cwd st
               _ HP).
    unfold Shell.outcome. rewrite Hf. eexists; split; reflexivity.
  - intros host ca t0 t1 cfg py cmd process Hcmd HP Hf Hrc Hobs.
    destruct (BuilderFacts.build_with_command host ca t0 t1 cfg py cmd Hcmd)
      as [_ Hfin].
    rewrite Hfin.
    unfold Builder.verdict, Builder.stream_result, Shell.outcome.
    rewrite Hobs, HP, Hf. cbn [Shell.success Shell.stderr PyStr.truthy].
    destruct (Z.eqb_spec (returncode process) 0) as [E|E]; [contradiction|].
    reflexivity.
Qed.

Lemma failed_build_message_is_generic_witness :
  Builder.finished
    (Builder.emitted
       (user (Builder.build failing_build_host (Some 5) 10 25
                example_config None)))
  = [ {| Builder.status := Builder.FAILED;
         Builder.output_path := None;
         Builder.error_message := "Build failed";
         Builder.build_time := 15%Z |} ]
  /\ exists r,
       fst (Shell.run_command_stream failing_build_host ["tool"]
              Shell.recorder None (initial_state [])) = Ok r
       /\ Shell.stderr r = "".
Proof.
  split.
  - refine (proj2 failed_build_message_is_generic failing_build_host (Some 5)
              10%Z 25%Z example_config None
              ["python"; "-m"; "PyInstaller"; "--onefile"; "--noconsole";
               "--clean"; "--noconfirm"; "--distpath"; "out"; "app.py"]
              _ eq_refl eq_refl eq_refl _ eq_refl).
    discriminate.
  - exact (proj1 failed_build_message_is_generic (list string)
             failing_build_host ["tool"] Shell.recorder None
             (initial_state []) _ eq_refl eq_refl ShellFacts.recorder_quiet).
Defined.

(** C8. The install operation of the environment worker.  When no
    manifest path is given, or the disk says the path does not exist,
    the operation emits one signal, the finish with [False] and
    "Requirements file not found", and calls [Popen] not once.  When
    the manifest exists but the environment's installer does not (the
    path [Scripts/pip.exe] under the environment's root on Windows,
    [bin/pip] under it elsewhere), it reports progress and finishes
    with [False] and "Pip not found in virtual environment", again
    without calling [Popen]. *)
Theorem install_fails_fast :
  forall (host : Host) (disk : Venv.Disk) (root : Venv.EnvPath)
         (requirements_path : option Venv.EnvPath),
    ((requirements_path = None
      \/ exists manifest,
           requirements_path = Some manifest
           /\ Venv.disk_exists disk manifest = Ok false) ->
     popen_calls (Venv.install host disk root requirements_path) = []
     /\ Venv.emitted (user (Venv.install host disk root requirements_path))
        = [Venv.operation_finished false "Requirements file not found"])
    /\ (forall manifest,
          requirements_path = Some manifest ->
          Venv.disk_exists disk manifest = Ok true ->
          Venv.disk_exists disk
            (if is_win32 (sys_platform host)
             then Venv.joinpath (Venv.joinpath root "Scripts") "pip.exe"
             else Venv.joinpath (Venv.joinpath root "bin") "pip")
          = Ok false ->
          popen_calls (Venv.install host disk root requirements_path) = []
          /\ Venv.emitted
               (user (Venv.install host disk root requirements_path))
             = [Venv.progress "Installing requirements...";
                Venv.operation_finished false
                  "Pip not found in virtual environment"]).
Proof.
  intros host disk root rp. split.
  - intros Hm.
    assert (Hmiss : Venv.manifest_missing disk rp = Ok true).
    { destruct Hm as [->|[m [-> Hm]]]; [reflexivity|].
      cbn [Venv.manifest_missing]. rewrite Hm. reflexivity. }
    unfold Venv.install, Venv._install_requirements, try_exceptM, bindM,
      get_user, Venv.ask.
    cbn [initial_state user Venv.init Venv.requirements_path].
    rewrite Hmiss. split; reflexivity.
  - intros m -> Hm Hpip.
    unfold Venv.install, Venv._install_requirements, try_exceptM, bindM,
      get_user, Venv.ask.
    cbn [initial_state user Venv.init Venv.requirements_path
         Venv.manifest_missing].
    rewrite Hm. cbn [bind negb].
    cbn [Venv.emit modify_user user popen_calls Venv.venv_path
         Venv.operation Venv.requirements_path Venv.emitted app fst snd].
    cbv zeta. cbn [Venv.venv_path Venv.init]. unfold Venv.pip_path.
    rewrite Hpip. split; reflexivity.
Qed.

Lemma install_fails_fast_witness :
  (popen_calls (Venv.install bare_host bare_disk
                  (Venv.mkEnvPath "env" []) (Some (Venv.mkEnvPath "missing.txt" [])))
   = []
   /\ Venv.emitted
        (user (Venv.install bare_host bare_disk (Venv.mkEnvPath "env" [])
                 (Some (Venv.mkEnvPath "missing.txt" []))))
      = [Venv.operation_finished false "Requirements file not found"])
  /\ (popen_calls (Venv.install bare_host bare_disk
                     (Venv.mkEnvPath "env" [])
                     (Some (Venv.mkEnvPath "req.txt" [])))
      = []
      /\ Venv.emitted
           (user (Venv.install bare_host bare_disk (Venv.mkEnvPath "env" [])
                    (Some (Venv.mkEnvPath "req.txt" []))))
         = [Venv.progress "Installing requirements...";
            Venv.operation_finished false
              "Pip not found in virtual environment"]).
Proof.
  split.
  - refine (proj1 (install_fails_fast bare_host bare_disk
                     (Venv.mkEnvPath "env" [])
                     (Some (Venv.mkEnvPath "missing.txt" []))) _).
    right. eexists. split; reflexivity.
  - exact (proj2 (install_fails_fast bare_host bare_disk
                    (Venv.mkEnvPath "env" [])
                    (Some (Venv.mkEnvPath "req.txt" [])))
             _ eq_refl eq_refl eq_refl).
Defined.

(** C6, as stated, fails: with three registered, enabled post-build
    plugins of which the second raises, the map need not have exactly
    one [False] entry.  When the first returns [False] without raising
    there are two. *)
Lemma two_false_entries :
  PluginLoader.reports_enabled quiet_failure = true
  /\ PluginLoader.reports_enabled thrower = true
  /\ PluginLoader.reports_enabled succeeder = true
  /\ PluginLoader.execute_post_build_plugins
       (PluginLoader.register
          (PluginLoader.register (PluginLoader.register [] quiet_failure)
             thrower)
          succeeder)
       tt []
     = (Ok [("first", false); ("second", false); ("third", true)],
        ["first"; "second"; "third"])
  /\ PluginLoader.count_false
       [("first", false); ("second", false); ("third", true)] = 2.
Proof.
  repeat split; reflexivity.
Qed.

(** C6, amended. Register three plugins with three different names, all
    instances of [PostBuildPlugin] and all enabled (the info each one's
    [get_info] returns says so), the second of which raises on the
    context.  Then [execute_post_build_plugins] calls the three in
    registration order, and the map it returns has one entry per
    plugin: what the first returned, [False] for the second, what the
    third returned.  When the first and the third return [True], the
    second's is the only [False] entry. *)
Theorem post_build_plugins_isolated :
  forall (Context : Type) (p1 p2 p3 : PluginLoader.Plugin Context)
         (context : Context) (calls : PluginLoader.Calls) (e : exn),
    PluginLoader.NAME p1 <> PluginLoader.NAME p2 ->
    PluginLoader.NAME p1 <> PluginLoader.NAME p3 ->
    PluginLoader.NAME p2 <> PluginLoader.NAME p3 ->
    PluginLoader.isinstance_PostBuildPlugin p1 = true ->
    PluginLoader.isinstance_PostBuildPlugin p2 = true ->
    PluginLoader.isinstance_PostBuildPlugin p3 = true ->
    PluginLoader.reports_enabled p1 = true ->
    PluginLoader.reports_enabled p2 = true ->
    PluginLoader.reports_enabled p3 = true ->
    PluginLoader.execute p2 context = Raise e ->
    PluginLoader.execute_post_build_plugins
      (PluginLoader.register
         (PluginLoader.register (PluginLoader.register [] p1) p2) p3)
      context calls
    = (Ok [(PluginLoader.NAME p1,
            PluginLoader.reported (PluginLoader.execute p1 context));
           (PluginLoader.NAME p2, false);
           (PluginLoader.NAME p3,
            PluginLoader.reported (PluginLoader.execute p3 context))],
       calls ++ [PluginLoader.NAME p1; PluginLoader.NAME p2;
                 PluginLoader.NAME p3])
    /\ (PluginLoader.execute p1 context = Ok true ->
        PluginLoader.execute p3 context = Ok true ->
        PluginLoader.count_false
          [(PluginLoader.NAME p1,
            PluginLoader.reported (PluginLoader.execute p1 context));
           (PluginLoader.NAME p2, false);
           (PluginLoader.NAME p3,
            PluginLoader.reported (PluginLoader.execute p3 context))]
        = 1).
Proof.
  intros Context p1 p2 p3 context calls e H12 H13 H23 I1 I2 I3 E1 E2 E3
    Hraise.
  split.
  - rewrite (PluginFacts.register_three Context p1 p2 p3 H12 H13 H23).
    destruct (PluginFacts.get_plugin_three Context p1 p2 p3 H12 H13 H23)
      as [G1 [G2 G3]].
    unfold PluginLoader.execute_post_build_plugins,
      PluginLoader.get_post_build_plugins, PluginLoader.dict_values.
    cbn [map snd filter]. rewrite I1, I2, I3.
    unfold PluginLoader.reports_enabled in E1, E2, E3.
    cbn [PluginLoader.post_build_loop].
    destruct (PluginLoader.get_info p1) as [i1|]; [|discriminate].
    destruct (PluginLoader.get_info p2) as [i2|]; [|discriminate].
    destruct (PluginLoader.get_info p3) as [i3|]; [|discriminate].
    rewrite E1. unfold PluginLoader.execute_plugin.
    cbv zeta in G1, G2, G3. rewrite G1.
    destruct (PluginLoader.execute p1 context) as [b1 | e1];
      rewrite E2, G2, Hraise, E3, G3;
      destruct (PluginLoader.execute p3 context) as [b3 | e3];
      rewrite (PluginFacts.results_three Context p1 p2 p3 H12 H13 H23);
      cbn [PluginLoader.reported]; rewrite <- !app_assoc; reflexivity.
  - intros X1 X3. rewrite X1, X3. reflexivity.
Qed.

Lemma post_build_plugins_isolated_witness :
  PluginLoader.execute_post_build_plugins
    (PluginLoader.register
       (PluginLoader.register (PluginLoader.register [] succeeder) thrower)
       archiver)
    tt []
  = (Ok [("third", true); ("second", false); ("archive", true)],
     ["third"; "second"; "archive"])
  /\ PluginLoader.count_false
       [("third", true); ("second", false); ("archive", true)] = 1.
Proof.
  assert (H12 : PluginLoader.NAME succeeder <> PluginLoader.NAME thrower)
    by discriminate.
  assert (H13 : PluginLoader.NAME succeeder <> PluginLoader.NAME archiver)
    by discriminate.
  assert (H23 : PluginLoader.NAME thrower <> PluginLoader.NAME archiver)
    by discriminate.
  destruct (post_build_plugins_isolated unit succeeder thrower archiver tt []
              (RuntimeError "boom") H12 H13 H23
              eq_refl eq_refl eq_refl eq_refl eq_refl eq_refl eq_refl)
    as [Hrun Hone].
  split; [exact Hrun|exact (Hone eq_refl eq_refl)].
Defined.

(* ------------------------------------------------------------------ *)
(** ** Further properties of the command builder *)

Module CommandExtras.

Lemma rstrip_idempotent s : PyStr.rstrip (PyStr.rstrip s) = PyStr.rstrip s.
Proof.
  induction s as [|c r IH]; [reflexivity|].
  cbn [PyStr.rstrip]. destruct (PyStr.rstrip r) as [|d r'] eqn:E.
  - destruct (PyStr.is_space c) eqn:Ec; [reflexivity|].
    cbn [PyStr.rstrip]. now rewrite Ec.
  - cbn [PyStr.rstrip]. cbn [PyStr.rstrip] in IH.
    destruct (PyStr.rstrip r') as [|d' r'']; rewrite IH; reflexivity.
Qed.

(** White space is cut from the right only: the first character of a
    string that starts with none stays. *)
Lemma rstrip_keeps_head c r :
  PyStr.is_space c = false ->
  exists r', PyStr.rstrip (String c r) = String c r'.
Proof.
  intros Hc. cbn [PyStr.rstrip]. rewrite Hc.
  destruct (PyStr.rstrip r); eauto.
Qed.

Lemma lstrip_head s :
  PyStr.lstrip s = ""
  \/ exists c r, PyStr.lstrip s = String c r /\ PyStr.is_space c = false.
Proof.
  induction s as [|c r IH]; [now left|].
  cbn [PyStr.lstrip]. destruct (PyStr.is_space c) eqn:E; [exact IH|].
  right; eauto.
Qed.

Lemma strip_idempotent s : PyStr.strip (PyStr.strip s) = PyStr.strip s.
Proof.
  unfold PyStr.strip.
  destruct (lstrip_head s) as [E | [c [r [E Hc]]]]; rewrite E.
  - reflexivity.
  - destruct (rstrip_keeps_head c r Hc) as [r' Er].
    assert (Hl : PyStr.lstrip (PyStr.rstrip (String c r))
                 = PyStr.rstrip (String c r)).
    { rewrite Er. cbn [PyStr.lstrip]. now rewrite Hc. }
    rewrite Hl. apply rstrip_idempotent.
Qed.

Lemma split_from_blank s :
  PyStr.has_nonspace s = false -> PyStr.split_from "" s = [].
Proof.
  induction s as [|c r IH]; [reflexivity|]. cbn [PyStr.has_nonspace].
  intros H. apply orb_false_iff in H as [Hc Hr].
  apply negb_false_iff in Hc. cbn [PyStr.split_from PyStr.truthy].
  rewrite Hc. auto.
Qed.

Lemma mem_app c a b :
  PyStr.mem c (a ++ b)%string = PyStr.mem c a || PyStr.mem c b.
Proof.
  induction a as [|d r IH]; [reflexivity|].
  cbn [String.append PyStr.mem]. now rewrite IH, orb_assoc.
Qed.

Lemma replace_removes old new s :
  PyStr.mem old new = false -> PyStr.mem old (PyStr.replace old new s) = false.
Proof.
  intros Hn. induction s as [|c r IH]; [reflexivity|].
  cbn [PyStr.replace]. destruct (Ascii.eqb c old) eqn:E.
  - now rewrite mem_app, Hn, IH.
  - cbn [PyStr.mem]. now rewrite E, IH.
Qed.

Lemma replace_same c s : PyStr.replace c (String c "") s = s.
Proof.
  induction s as [|d r IH]; [reflexivity|]. cbn [PyStr.replace].
  destruct (Ascii.eqb_spec d c) as [->|]; simpl; now rewrite IH.
Qed.

(** X1. For every configuration with a script path, the vector starts
    with the interpreter, [-m], [PyInstaller], ends with the script
    path, and carries [--noconfirm] in between. *)
Theorem command_frame :
  forall sys_platform path_exists python_path config,
    script_path config <> "" ->
    exists middle,
      CommandBuilder._build_command sys_platform path_exists python_path config
      = Ok ([python_path; "-m"; "PyInstaller"] ++ middle
            ++ [script_path config])
      /\ In "--noconfirm" middle.
Proof.
  intros plat ex py config Hs. unfold CommandBuilder._build_command.
  destruct (script_path config) as [|c r] eqn:E; [congruence|].
  cbn [PyStr.truthy negb].
  exists ((if one_file config then ["--onefile"] else ["--onedir"])
          ++ (if negb (console_mode config) then ["--noconsole"] else [])
          ++ (if clean_build config then ["--clean"] else [])
          ++ ["--noconfirm"]
          ++ (if PyStr.truthy (output_dir config)
              then ["--distpath"; output_dir config] else [])
          ++ (if PyStr.truthy (app_name config)
              then ["--name"; app_name config] else [])
          ++ (if PyStr.truthy (icon_path config) && ex (icon_path config)
              then ["--icon"; icon_path config] else [])
          ++ CommandBuilder.flag_per_entry "--hidden-import"
               (hidden_imports config)
          ++ CommandBuilder.flag_per_entry "--exclude-module"
               (exclude_modules config)
          ++ CommandBuilder.add_data_args plat (data_files config)
          ++ (if PyStr.truthy (additional_args config)
              then PyStr.split (additional_args config) else [])).
  split.
  - rewrite <- !app_assoc. reflexivity.
  - rewrite !in_app_iff. simpl. tauto.
Qed.

Lemma command_frame_witness :
  exists middle,
    CommandBuilder._build_command "linux" (fun _ => false) "python"
      example_config
    = Ok (["python"; "-m"; "PyInstaller"] ++ middle ++ ["app.py"])
    /\ In "--noconfirm" middle.
Proof.
  refine (command_frame "linux" (fun _ => false) "python" example_config _).
  discriminate.
Defined.

(** X2. An icon path that does not exist on disk is dropped: the build
    command is the one of the same configuration without icon. *)
Theorem stale_icon_dropped :
  forall sys_platform path_exists python_path config,
    path_exists (icon_path config) = false ->
    CommandBuilder._build_command sys_platform path_exists python_path config
    = CommandBuilder._build_command sys_platform path_exists python_path
        (with_icon_path config "").
Proof.
  intros plat ex py config Hi. unfold CommandBuilder._build_command.
  cbn [with_icon_path script_path one_file console_mode clean_build
       output_dir app_name icon_path hidden_imports exclude_modules
       data_files additional_args].
  rewrite Hi, andb_false_r. reflexivity.
Qed.

Lemma stale_icon_dropped_witness :
  CommandBuilder._build_command "linux" (fun _ => false) "python"
    stale_icon_config
  = CommandBuilder._build_command "linux" (fun _ => false) "python"
      (with_icon_path stale_icon_config "").
Proof.
  exact (stale_icon_dropped "linux" (fun _ => false) "python"
           stale_icon_config eq_refl).
Defined.

(** X3. An extra-argument string of white space only adds nothing: the
    build command is the one of the same configuration with no extra
    arguments. *)
Theorem blank_extra_arguments_ignored :
  forall sys_platform path_exists python_path config,
    PyStr.has_nonspace (additional_args config) = false ->
    CommandBuilder._build_command sys_platform path_exists python_path config
    = CommandBuilder._build_command sys_platform path_exists python_path
        (with_additional_args config "").
Proof.
  intros plat ex py config Hb. unfold CommandBuilder._build_command.
  cbn [with_additional_args script_path one_file console_mode clean_build
       output_dir app_name icon_path hidden_imports exclude_modules
       data_files additional_args PyStr.truthy].
  unfold PyStr.split. rewrite (split_from_blank _ Hb).
  destruct (PyStr.truthy (additional_args config)); reflexivity.
Qed.

Lemma blank_extra_arguments_ignored_witness :
  CommandBuilder._build_command "linux" (fun _ => false) "python"
    stale_icon_config
  = CommandBuilder._build_command "linux" (fun _ => false) "python"
      (with_additional_args stale_icon_config "").
Proof.
  exact (blank_extra_arguments_ignored "linux" (fun _ => false) "python"
           stale_icon_config eq_refl).
Defined.

(** X4. The rewriting of a data-file entry by platform.  On Windows the
    entry is only trimmed.  Elsewhere no [;] is left in what is
    emitted. *)
Theorem data_entry_by_platform :
  forall data_file,
    CommandBuilder.normalized "win32" data_file = PyStr.strip data_file
    /\ (forall sys_platform,
          is_win32 sys_platform = false ->
          PyStr.mem ";"%char (CommandBuilder.normalized sys_platform data_file)
          = false).
Proof.
  intros d. split.
  - unfold CommandBuilder.normalized, CommandBuilder.path_sep.
    cbn [is_win32]. change (String.eqb "win32" "win32") with true.
    cbv iota. apply replace_same.
  - intros plat Hp. unfold CommandBuilder.normalized, CommandBuilder.path_sep.
    rewrite Hp. apply replace_removes. reflexivity.
Qed.

Lemma data_entry_by_platform_witness :
  PyStr.mem ";"%char (CommandBuilder.normalized "darwin" " a;b;c ") = false.
Proof.
  exact (proj2 (data_entry_by_platform " a;b;c ") "darwin" eq_refl).
Defined.

(** X5. The hidden-import and exclude-module loops: entries of white
    space only are skipped, the others give one flag and value each, in
    list order, and every value emitted is trimmed: trimming it again
    changes nothing, and it is not empty. *)
Theorem flag_per_entry_trimmed :
  forall flag xs,
    CommandBuilder.flag_per_entry flag xs
    = flat_map (fun x => [flag; PyStr.strip x])
        (filter PyStr.has_nonspace xs)
    /\ Forall (fun v => PyStr.strip v = v /\ v <> "")
         (map PyStr.strip (filter PyStr.has_nonspace xs)).
Proof.
  intros flag xs. split.
  - induction xs as [|x r IH]; [reflexivity|].
    cbn [CommandBuilder.flag_per_entry filter].
    rewrite PyStrFacts.truthy_strip.
    destruct (PyStr.has_nonspace x); cbn [flat_map app]; now rewrite IH.
  - induction xs as [|x r IH]; [constructor|]. cbn [filter].
    destruct (PyStr.has_nonspace x) eqn:E; [|exact IH].
    cbn [map]. constructor; [|exact IH]. split.
    + apply strip_idempotent.
    + intros He. rewrite <- PyStrFacts.truthy_strip, He in E. discriminate.
Qed.

End CommandExtras.

(* ------------------------------------------------------------------ *)
(** ** Further properties of the process runner *)

Module ShellExtras.
Import Shell.


(** X6. Both runners keep [success] equal to "the exit code is 0" in
    every result they return, the failure results included. *)
Theorem success_iff_zero_exit :
  (forall host command cwd timeout r,
      run_command host command cwd timeout = Ok r ->
      success r = Z.eqb (return_code r) 0)
  /\ (forall (S : Type) host command (cb : string -> M S unit) cwd st r,
        fst (run_command_stream host command cb cwd st) = Ok r ->
        success r = Z.eqb (return_code r) 0).
Proof.
  split.
  - intros host command cwd timeout r. unfold run_command, try_except, bind.
    destruct (subprocess_run host command cwd timeout) as [done|e].
    + intros H; injection H as <-. reflexivity.
    + destruct e; intros H; injection H as <-; reflexivity.
  - intros S host command cb cwd st r.
    unfold run_command_stream, try_exceptM, bindM, spawn, end_of_pipe.
    destruct (Popen host command cwd) as [process|e].
    + destruct (stream_loop cb (lines_of (pipe_text process)) [] _)
        as [[ls|e] st']; [destruct (pipe_fault process)|];
        cbn; intros H; injection H as <-; reflexivity.
    + cbn. intros H; injection H as <-. reflexivity.
Qed.

Lemma success_iff_zero_exit_witness :
  success {| return_code := -1; stdout := ""; stderr := "Command timed out after 30 seconds";
             success := false |}
  = Z.eqb (-1) 0.
Proof.
  exact (proj1 success_iff_zero_exit
           {| sys_platform := "linux"; sys_executable := "python";
              path_exists := fun _ => true; path_parent := fun p => p;
              Popen := fun _ _ => Raise (OSError "not used");
              subprocess_run := fun _ _ _ => Raise (TimeoutExpired None) |}
           ["sleep"; "60"] None (Some 30%Z) _ eq_refl).
Defined.


(** X8. When the command cannot be started, the consumer is not called:
    the state is the one before with the call of [Popen] noted, and the
    result is the failure carrying the exception's text. *)
Theorem spawn_failure_is_a_result :
  forall (S : Type) host command (cb : string -> M S unit) cwd st e,
    Popen host command cwd = Raise e ->
    run_command_stream host command cb cwd st
    = (Ok {| return_code := -1; stdout := ""; stderr := str_exn e;
             success := false |},
       {| popen_calls := popen_calls st ++ [command]; user := user st |}).
Proof.
  intros S host command cb cwd st e HP.
  unfold run_command_stream, try_exceptM, bindM, spawn. rewrite HP.
  reflexivity.
Qed.

Lemma spawn_failure_is_a_result_witness :
  run_command_stream no_tool_host ["tool"] failing_consumer None
    (initial_state tt)
  = (Ok {| return_code := -1; stdout := "";
           stderr := "No such file or directory"; success := false |},
     {| popen_calls := [["tool"]]; user := tt |}).
Proof.
  exact (spawn_failure_is_a_result unit no_tool_host ["tool"]
           failing_consumer None (initial_state tt) _ eq_refl).
Defined.

Lemma readline_clean s :
  PyStr.mem "010"%char (without_newline (fst (readline s))) = false.
Proof.
  induction s as [|c r IH]; [reflexivity|]. cbn [readline].
  destruct (Ascii.eqb c "010"%char) eqn:E.
  - cbn [fst without_newline]. rewrite E. reflexivity.
  - destruct (readline r) as [line rest] eqn:Er. cbn [fst] in *.
    destruct line as [|d l].
    + cbn [without_newline]. rewrite E. cbn [PyStr.mem]. now rewrite E.
    + change (without_newline (String c (String d l)))
        with (String c (without_newline (String d l))).
      cbn [PyStr.mem]. now rewrite E, IH.
Qed.

Lemma iter_readline_clean fuel :
  forall s,
    Forall (fun l => PyStr.mem "010"%char (without_newline l) = false)
      (iter_readline fuel s).
Proof.
  induction fuel as [|f IH]; intros s; [constructor|].
  cbn [iter_readline]. pose proof (readline_clean s) as Hc.
  destruct (readline s) as [line rest]. cbn [fst] in Hc.
  destruct (PyStr.truthy line); constructor; auto.
Qed.

(** X9. Reading a text line by line loses nothing and invents nothing:
    the lines joined give the text back, no line is empty, and a line
    holds no newline except as its last character. *)
Theorem lines_round_trip :
  forall s,
    PyStr.join "" (lines_of s) = s
    /\ Forall (fun l => l <> ""
                        /\ PyStr.mem "010"%char (without_newline l) = false)
         (lines_of s).
Proof.
  intros s. split; [apply ShellFacts.join_lines_of|].
  pose proof (ShellFacts.lines_of_truthy s) as H1.
  pose proof (iter_readline_clean (S (String.length s)) s) as H2.
  fold (lines_of s) in H2. revert H1 H2.
  induction (lines_of s) as [|l r IH]; intros H1 H2; [constructor|].
  inversion H1; inversion H2; subst. constructor; [|auto].
  split; [|assumption]. intros ->. discriminate.
Qed.

End ShellExtras.

(* ------------------------------------------------------------------ *)
(** ** Further properties of the build worker *)

Module BuilderExtras.
Import Builder.

Section Trace.

Variable host : Host.
Variable cancel_after : option nat.
Variable start_time finish_time : Z.

(** The worker's consumer relays a line when its read of the flag comes
    before the call of [cancel()], and nothing from then on. *)
Lemma deliver_emitted cfg py calls fin args :
  forall n st,
    tracks cancel_after cfg py calls fin n st ->
    emitted (user (Shell.deliver (output_callback cancel_after) args st))
    = emitted (user st)
      ++ map output_line (relayed_from cancel_after n args).
Proof.
  induction args as [|a r IH]; intros n st Ht.
  - unfold relayed_from. destruct cancel_after; cbn;
      try rewrite firstn_nil; cbn; now rewrite app_nil_r.
  - unfold Shell.deliver in *. cbn [fold_left].
    pose proof (BuilderFacts.output_callback_tracks cancel_after
                  cfg py calls fin n st a Ht) as Ht1.
    rewrite (IH (S n) _ Ht1). clear IH Ht1.
    destruct (BuilderFacts.read_cancelled_tracks cancel_after
                cfg py calls fin n st Ht) as [Hr [_ He]].
    unfold output_callback, bindM.
    destruct (read_cancelled cancel_after st) as [c st1].
    cbn [fst snd] in Hr, He. subst c.
    unfold relayed_from, cancel_observed.
    destruct cancel_after as [k|].
    + destruct (k <=? n)%nat eqn:E.
      * apply Nat.leb_le in E.
        replace (k - n) with 0 by lia. replace (k - S n) with 0 by lia.
        cbn. now rewrite He.
      * apply Nat.leb_gt in E.
        replace (k - n) with (S (k - S n)) by lia.
        cbn. rewrite He, <- app_assoc. reflexivity.
    + cbn. rewrite He, <- app_assoc. reflexivity.
Qed.

(** The whole trace of a build whose command is built. *)
Lemma build_trace cfg py cmd :
  CommandBuilder._build_command (sys_platform host) (path_exists host)
    (python_path (init host cfg py)) cfg = Ok cmd ->
  emitted (user (build host cancel_after start_time finish_time cfg py))
  = preamble cmd
    ++ map output_line
         (relayed_from cancel_after 0
            (map PyStr.rstrip (process_lines host cfg cmd)))
    ++ [build_finished
          (verdict host cancel_after start_time finish_time cfg cmd)].
Proof.
  intros Hcmd.
  assert (H0 : tracks cancel_after cfg (python_path (init host cfg py))
                 [cmd] [] 0 (Shell.noting cmd (at_spawn host cfg py cmd))).
  { constructor; simpl; auto. discriminate. }
  assert (Hstream :
    fst (Shell.run_command_stream host cmd (output_callback cancel_after)
           (working_dir host cfg) (at_spawn host cfg py cmd))
    = Ok (stream_result host cfg cmd)
    /\ emitted (user (snd (Shell.run_command_stream host cmd
                             (output_callback cancel_after)
                             (working_dir host cfg)
                             (at_spawn host cfg py cmd))))
       = preamble cmd
         ++ map output_line
              (relayed_from cancel_after 0
                 (map PyStr.rstrip (process_lines host cfg cmd)))).
  { unfold stream_result, process_lines.
    destruct (Popen host cmd (working_dir host cfg)) as [process|e] eqn:HP.
    - rewrite (ShellFacts.run_command_stream_quiet _ _
                 (BuilderFacts.output_callback_quiet cancel_after)
                 host cmd _ _ _ HP).
      split; [reflexivity|]. cbn [snd].
      rewrite (deliver_emitted cfg _ [cmd] [] _ 0 _ H0). reflexivity.
    - rewrite (ShellFacts.run_command_stream_spawn_failure _
                 (output_callback cancel_after) host cmd _ _ e HP).
      split; [reflexivity|]. cbn [snd].
      unfold relayed_from. destruct cancel_after; cbn;
        try rewrite firstn_nil; reflexivity. }
  destruct Hstream as [Hres Hem].
  destruct (BuilderFacts.stream_tracks host cancel_after cfg py cmd)
    as [_ Htr].
  unfold build, run, try_exceptM, bindM, _build_command, get_user.
  cbn [emit modify_user initial_state user popen_calls init
       config python_path _cancelled flag_reads emitted app fst snd].
  cbn [init python_path] in Hcmd. rewrite Hcmd.
  cbn [emit modify_user initial_state user popen_calls
       config python_path _cancelled flag_reads emitted app fst snd].
  change {| popen_calls := [];
            user := {| config := cfg;
                       python_path := match py with
                                      | Some p => if PyStr.truthy p then p
                                                  else sys_executable host
                                      | None => sys_executable host
                                      end;
                       _cancelled := false; flag_reads := 0;
                       emitted :=
                         [status_changed "Preparing build...";
                          output_line (">>> " ++ PyStr.join " " cmd
                                       ++ String "010"%char "");
                          status_changed "Building..."] |} |}
    with (at_spawn host cfg py cmd).
  destruct (Shell.run_command_stream host cmd
              (output_callback cancel_after) (working_dir host cfg)
              (at_spawn host cfg py cmd)) as [r st1].
  cbn [fst snd] in Hres, Hem, Htr. subst r.
  destruct (BuilderFacts.read_cancelled_tracks cancel_after _ _ _ _ _ st1 Htr)
    as [Hc [_ He]].
  destruct (read_cancelled cancel_after st1) as [c st2].
  cbn [fst snd] in Hc, He. subst c.
  unfold verdict.
  destruct (cancel_observed cancel_after (lines_drained host cfg cmd));
    [|destruct (Shell.success (stream_result host cfg cmd))];
    cbn [emit modify_user snd user popen_calls emitted];
    rewrite He, Hem, <- app_assoc; reflexivity.
Qed.

End Trace.

(** X10. The signals of a build whose command is built, in order: the
    two status messages around the echo of the command; then the lines
    read from the process (all of its lines, or those before the read
    that raised), each less its trailing white space, as long as
    [cancel()] has not landed, and none from then on; last, the one
    result.  When a read of the output raises in a build that nobody
    cancels, every line read before is relayed and the result is
    [Failed] with the text of the exception ("Build failed" when that
    text is empty), whatever the exit code of the process. *)
Theorem build_signals_in_order :
  forall host cancel_after start_time finish_time cfg py cmd,
    CommandBuilder._build_command (sys_platform host) (path_exists host)
      (python_path (init host cfg py)) cfg = Ok cmd ->
    (exists r,
       emitted (user (build host cancel_after start_time finish_time cfg py))
       = preamble cmd
         ++ map output_line
              (relayed_from cancel_after 0
                 (map PyStr.rstrip (process_lines host cfg cmd)))
         ++ [build_finished r])
    /\ (forall process e,
          Popen host cmd (working_dir host cfg) = Ok process ->
          pipe_fault process = Some e ->
          emitted (user (build host None start_time finish_time cfg py))
          = preamble cmd
            ++ map output_line
                 (map PyStr.rstrip (Shell.lines_of (pipe_text process)))
            ++ [build_finished
                  {| status := FAILED; output_path := None;
                     error_message :=
                       if PyStr.truthy (str_exn e) then str_exn e
                       else "Build failed";
                     build_time := (finish_time - start_time)%Z |}]).
Proof.
  intros host ca t0 t1 cfg py cmd Hcmd. split.
  - eexists. apply (build_trace host ca t0 t1 cfg py cmd Hcmd).
  - intros process e HP Hf.
    rewrite (build_trace host None t0 t1 cfg py cmd Hcmd).
    unfold process_lines, verdict, stream_result, Shell.outcome,
      relayed_from, cancel_observed.
    rewrite HP, Hf. reflexivity.
Qed.

Lemma build_signals_in_order_witness :
  (exists r,
     emitted (user (build passing_build_host (Some 1) 10 25 example_config
                      None))
     = preamble ["python"; "-m"; "PyInstaller"; "--onefile"; "--noconsole";
                 "--clean"; "--noconfirm"; "--distpath"; "out"; "app.py"]
       ++ [output_line "compiling"] ++ [build_finished r])
  /\ emitted (user (build undecodable_host None 10 25 example_config None))
     = preamble ["python"; "-m"; "PyInstaller"; "--onefile"; "--noconsole";
                 "--clean"; "--noconfirm"; "--distpath"; "out"; "app.py"]
       ++ [output_line "building"]
       ++ [build_finished
             {| status := FAILED; output_path := None;
                error_message := "'charmap' codec can't decode byte 0x81";
                build_time := 15%Z |}].
Proof.
  split.
  - exact (proj1 (build_signals_in_order passing_build_host (Some 1) 10 25
                    example_config None _ eq_refl)).
  - exact (proj2 (build_signals_in_order undecodable_host None 10 25
                    example_config None _ eq_refl) _ _ eq_refl eq_refl).
Defined.

(** X11. When [cancel()] is called before the worker first looks at the
    flag, not one line of the process is relayed: after the echo of the
    command the only signal left is the [Cancelled] result. *)
Theorem cancel_first_relays_nothing :
  forall host start_time finish_time cfg py cmd,
    CommandBuilder._build_command (sys_platform host) (path_exists host)
      (python_path (init host cfg py)) cfg = Ok cmd ->
    emitted (user (build host (Some 0) start_time finish_time cfg py))
    = preamble cmd
      ++ [build_finished
            {| status := CANCELLED; output_path := None;
               error_message := "";
               build_time := (finish_time - start_time)%Z |}].
Proof.
  intros host t0 t1 cfg py cmd Hcmd.
  rewrite (build_trace host (Some 0) t0 t1 cfg py cmd Hcmd).
  reflexivity.
Qed.

Lemma cancel_first_relays_nothing_witness :
  emitted (user (build passing_build_host (Some 0) 10 25 example_config None))
  = preamble ["python"; "-m"; "PyInstaller"; "--onefile"; "--noconsole";
              "--clean"; "--noconfirm"; "--distpath"; "out"; "app.py"]
    ++ [build_finished
          {| status := CANCELLED; output_path := None;
             error_message := ""; build_time := 15%Z |}].
Proof.
  exact (cancel_first_relays_nothing passing_build_host 10 25
           example_config None _ eq_refl).
Defined.

(** X12. A build that nobody cancels and whose process starts, has its
    output read to the end without an error and exits with 0 relays
    every line and ends with [Success]; the output path of the result
    is the path made from the configured output directory, or absent
    when that is empty. *)
Theorem uncancelled_success :
  forall host start_time finish_time cfg py cmd process,
    CommandBuilder._build_command (sys_platform host) (path_exists host)
      (python_path (init host cfg py)) cfg = Ok cmd ->
    Popen host cmd (working_dir host cfg) = Ok process ->
    pipe_fault process = None ->
    returncode process = 0%Z ->
    emitted (user (build host None start_time finish_time cfg py))
    = preamble cmd
      ++ map output_line
           (map PyStr.rstrip (Shell.lines_of (pipe_text process)))
      ++ [build_finished
            {| status := SUCCESS;
               output_path := if PyStr.truthy (output_dir cfg)
                              then Some (Path (output_dir cfg)) else None;
               error_message := "";
               build_time := (finish_time - start_time)%Z |}].
Proof.
  intros host t0 t1 cfg py cmd process Hcmd HP Hf Hrc.
  rewrite (build_trace host None t0 t1 cfg py cmd Hcmd).
  unfold process_lines, verdict, stream_result, Shell.outcome, relayed_from,
    cancel_observed.
  rewrite HP, Hf. cbn [Shell.success]. rewrite Hrc. reflexivity.
Qed.

Lemma uncancelled_success_witness :
  emitted (user (build passing_build_host None 10 25 example_config None))
  = preamble ["python"; "-m"; "PyInstaller"; "--onefile"; "--noconsole";
              "--clean"; "--noconfirm"; "--distpath"; "out"; "app.py"]
    ++ [output_line "compiling"; output_line "done"]
    ++ [build_finished
          {| status := SUCCESS; output_path := Some (Path "out");
             error_message := ""; build_time := 15%Z |}].
Proof.
  exact (uncancelled_success passing_build_host 10 25 example_config None
           _ _ eq_refl eq_refl eq_refl eq_refl).
Defined.

(** X13. A build that nobody cancels and whose process cannot be
    started calls [Popen] once, relays no line and ends with [Failed];
    the error message is the text of the exception, or "Build failed"
    when that text is empty. *)
Theorem uncancelled_spawn_failure :
  forall host start_time finish_time cfg py cmd e,
    CommandBuilder._build_command (sys_platform host) (path_exists host)
      (python_path (init host cfg py)) cfg = Ok cmd ->
    Popen host cmd (working_dir host cfg) = Raise e ->
    popen_calls (build host None start_time finish_time cfg py) = [cmd]
    /\ emitted (user (build host None start_time finish_time cfg py))
       = preamble cmd
         ++ [build_finished
               {| status := FAILED; output_path := None;
                  error_message := if PyStr.truthy (str_exn e)
                                   then str_exn e else "Build failed";
                  build_time := (finish_time - start_time)%Z |}].
Proof.
  intros host t0 t1 cfg py cmd e Hcmd HP. split.
  - apply (BuilderFacts.build_with_command host None t0 t1 cfg py cmd Hcmd).
  - rewrite (build_trace host None t0 t1 cfg py cmd Hcmd).
    unfold process_lines, verdict, stream_result, relayed_from,
      cancel_observed.
    rewrite HP. reflexivity.
Qed.

Lemma uncancelled_spawn_failure_witness :
  popen_calls (build no_tool_host None 10 25 example_config None)
  = [["python"; "-m"; "PyInstaller"; "--onefile"; "--noconsole";
      "--clean"; "--noconfirm"; "--distpath"; "out"; "app.py"]]
  /\ emitted (user (build no_tool_host None 10 25 example_config None))
     = preamble ["python"; "-m"; "PyInstaller"; "--onefile"; "--noconsole";
                 "--clean"; "--noconfirm"; "--distpath"; "out"; "app.py"]
       ++ [build_finished
             {| status := FAILED; output_path := None;
                error_message := "No such file or directory";
                build_time := 15%Z |}].
Proof.
  exact (uncancelled_spawn_failure no_tool_host 10 25 example_config None
           _ _ eq_refl eq_refl).
Defined.

End BuilderExtras.

(* ------------------------------------------------------------------ *)
(** ** Further properties of the plugin registry *)

Module PluginExtras.
Import PluginLoader PluginDiscovery.

Section Dict.

Variable V : Type.

Lemma dict_get_set_same (d : dict V) k v :
  dict_get (dict_set d k v) k = Some v.
Proof.
  induction d as [|[k' v'] r IH]; cbn.
  - now rewrite String.eqb_refl.
  - destruct (String.eqb k' k) eqn:E; cbn; rewrite E; auto.
Qed.

Lemma dict_get_set_other (d : dict V) k v k' :
  k' <> k -> dict_get (dict_set d k v) k' = dict_get d k'.
Proof.
  intros Hn. induction d as [|[k0 v0] r IH]; cbn.
  - apply not_eq_sym in Hn. apply String.eqb_neq in Hn. now rewrite Hn.
  - destruct (String.eqb_spec k0 k) as [->|Hk]; cbn.
    + apply not_eq_sym in Hn. apply String.eqb_neq in Hn. now rewrite Hn.
    + now rewrite IH.
Qed.

Lemma keys_set_in (d : dict V) k v :
  In k (map fst d) -> map fst (dict_set d k v) = map fst d.
Proof.
  induction d as [|[k0 v0] r IH]; cbn; [tauto|].
  destruct (String.eqb_spec k0 k) as [->|Hk]; cbn; [reflexivity|].
  intros [H|H]; [contradiction|]. now rewrite IH.
Qed.

Lemma dict_set_fresh (d : dict V) k v :
  ~ In k (map fst d) -> dict_set d k v = d ++ [(k, v)].
Proof.
  induction d as [|[k0 v0] r IH]; cbn; [reflexivity|].
  intros Hn. destruct (String.eqb_spec k0 k) as [->|Hk]; [tauto|].
  rewrite IH; tauto.
Qed.


Lemma dict_get_member (d : dict V) k v :
  NoDup (map fst d) -> In (k, v) d -> dict_get d k = Some v.
Proof.
  induction d as [|[k0 v0] r IH]; cbn; [tauto|].
  intros Hnd [H|H]; inversion Hnd as [|? ? Hni Hr]; subst.
  - injection H as -> ->. now rewrite String.eqb_refl.
  - destruct (String.eqb_spec k0 k) as [->|Hk]; [|auto].
    exfalso. apply Hni. change k with (fst (k, v)). now apply in_map.
Qed.

End Dict.


Section Registry.

Variable Context : Type.

Lemma register_well_formed (plugins : Registry Context) p :
  well_formed plugins -> well_formed (register plugins p).
Proof.
  intros [Hnd Hk]. unfold register, well_formed, names in *.
  induction plugins as [|[k0 p0] r IH]; cbn.
  - split; [repeat constructor; auto|repeat constructor].
  - inversion Hnd as [|? ? Hni Hr]; subst. inversion Hk as [|? ? Hk0 Hkr]; subst.
    destruct (String.eqb_spec k0 (NAME p)) as [E|E]; cbn.
    + split; [constructor; assumption|]. constructor; [exact E|assumption].
    + destruct (IH Hr Hkr) as [IH1 IH2]. split.
      * constructor; [|exact IH1].
        destruct (in_dec string_dec (NAME p) (map fst r)) as [Hin|Hout].
        -- now rewrite keys_set_in.
        -- rewrite dict_set_fresh by assumption. rewrite map_app, in_app_iff.
           cbn. intros [H|[H|[]]]; [tauto|]. now apply E.
      * constructor; assumption.
Qed.

Lemma register_classes_well_formed classes :
  forall plugins : Registry Context,
    well_formed plugins -> well_formed (register_classes plugins classes).
Proof.
  induction classes as [|obj rest IH]; intros plugins Hw; [exact Hw|].
  cbn [register_classes]. destruct (is_plugin_class obj); [|auto].
  destruct (instantiate obj); [|auto].
  apply IH. now apply register_well_formed.
Qed.

Lemma load_files_well_formed files :
  forall plugins : Registry Context,
    well_formed plugins -> well_formed (load_files plugins files).
Proof.
  induction files as [|f rest IH]; intros plugins Hw; [exact Hw|].
  cbn [load_files]. destruct (startswith_underscore (file_name f)); [auto|].
  unfold _load_plugin_file.
  destruct (has_loader f); cbn [negb]; [|auto].
  destruct (exec_module f) as [classes|e]; cbn [bind]; [|auto].
  apply IH. now apply register_classes_well_formed.
Qed.

Lemma load_files_app files1 :
  forall (plugins : Registry Context) files2,
    load_files plugins (files1 ++ files2)
    = load_files (load_files plugins files1) files2.
Proof.
  induction files1 as [|f rest IH]; intros plugins files2; [reflexivity|].
  cbn [app load_files].
  destruct (startswith_underscore (file_name f)); [apply IH|].
  destruct (_load_plugin_file plugins f); apply IH.
Qed.

Lemma names_register (plugins : Registry Context) p n :
  In n (names (register plugins p)) -> n = NAME p \/ In n (names plugins).
Proof.
  unfold names, register.
  destruct (in_dec string_dec (NAME p) (map fst plugins)) as [Hin|Hout].
  - rewrite keys_set_in by assumption. auto.
  - rewrite dict_set_fresh by assumption. rewrite map_app, in_app_iff.
    cbn. intros [H|[H|[]]]; auto.
Qed.

Lemma names_register_classes classes :
  forall (plugins : Registry Context) n,
    In n (names (register_classes plugins classes)) ->
    In n (names plugins)
    \/ exists obj p, In obj classes /\ instantiate obj = Ok p /\ NAME p = n.
Proof.
  induction classes as [|obj rest IH]; intros plugins n H; [now left|].
  cbn [register_classes] in H.
  assert (Hrest : forall plugins',
             In n (names (register_classes plugins' rest)) ->
             (In n (names plugins') ->
              In n (names plugins)
              \/ exists obj' p, In obj' (obj :: rest)
                                /\ instantiate obj' = Ok p /\ NAME p = n) ->
             In n (names plugins)
             \/ exists obj' p, In obj' (obj :: rest)
                               /\ instantiate obj' = Ok p /\ NAME p = n).
  { intros plugins' H' Hk. destruct (IH _ _ H') as [Hin|[o [p [Ho [Hi Hn]]]]].
    - auto.
    - right. exists o, p. cbn. auto. }
  destruct (is_plugin_class obj); [|apply (Hrest plugins H); auto].
  destruct (instantiate obj) as [inst|e] eqn:Ei; [|apply (Hrest plugins H); auto].
  apply (Hrest _ H). intros Hin.
  destruct (names_register _ _ _ Hin) as [->|Hold]; [|auto].
  right. exists obj, inst. cbn. auto.
Qed.

Lemma names_load_files files :
  forall (plugins : Registry Context) n,
    In n (names (load_files plugins files)) ->
    In n (names plugins)
    \/ exists p, instance_of files p /\ NAME p = n.
Proof.
  induction files as [|f rest IH]; intros plugins n H; [now left|].
  assert (Hrest : forall plugins',
             In n (names (load_files plugins' rest)) ->
             (In n (names plugins') ->
              In n (names plugins)
              \/ exists p, instance_of (f :: rest) p /\ NAME p = n) ->
             In n (names plugins)
             \/ exists p, instance_of (f :: rest) p /\ NAME p = n).
  { intros plugins' H' Hk. destruct (IH _ _ H') as [Hin|[p [Hp Hn]]].
    - auto.
    - right. exists p. split; [|exact Hn].
      destruct Hp as [file [classes [obj [Hf Hrest']]]].
      exists file, classes, obj. cbn. auto. }
  cbn [load_files] in H.
  destruct (startswith_underscore (file_name f)); [apply (Hrest _ H); auto|].
  unfold _load_plugin_file in H.
  destruct (has_loader f); cbn [negb] in H; [|apply (Hrest _ H); auto].
  destruct (exec_module f) as [classes|e] eqn:Ee; cbn [bind] in H;
    [|apply (Hrest _ H); auto].
  apply (Hrest _ H). intros Hin.
  destruct (names_register_classes _ _ _ Hin) as [Hold|[obj [p [Ho [Hi Hn]]]]];
    [auto|].
  right. exists p. split; [|exact Hn].
  exists f, classes, obj. cbn. auto.
Qed.

Lemma nodup_map_filter (A B : Type) (f : A -> B) (g : A -> bool) l :
  NoDup (map f l) -> NoDup (map f (filter g l)).
Proof.
  induction l as [|a r IH]; cbn; [auto|].
  intros H. inversion H as [|? ? Hni Hr]; subst.
  destruct (g a); cbn; [|auto]. constructor; [|auto].
  intros Hin. apply Hni. apply in_map_iff in Hin as [x [Hx Hin]].
  apply filter_In in Hin as [Hin _]. rewrite <- Hx. now apply in_map.
Qed.

(** The loop over the plugins to run, when each of them is registered
    under its name, none of them has a result yet and every [get_info]
    returns. *)
Lemma post_build_loop_spec (plugins : Registry Context) context todo :
  forall results calls,
    NoDup (names plugins) ->
    Forall (fun p => In (NAME p, p) plugins) todo ->
    NoDup (map NAME todo) ->
    Forall (fun p => exists info, get_info p = Ok info) todo ->
    (forall p, In p todo -> ~ In (NAME p) (map fst results)) ->
    post_build_loop plugins todo context results calls
    = (Ok (results
           ++ map (fun p => (NAME p, reported (execute p context)))
                (filter reports_enabled todo)),
       calls ++ map NAME (filter reports_enabled todo)).
Proof.
  induction todo as [|p rest IH];
    intros results calls Hnd Hreg Hnames Hinfo Hfresh.
  - cbn. now rewrite !app_nil_r.
  - inversion Hreg as [|? ? Hp Hrest]; subst.
    inversion Hnames as [|? ? Hni Hnr]; subst.
    inversion Hinfo as [|? ? [info Hi] Hir]; subst.
    assert (Hre : reports_enabled p = enabled info)
      by (unfold reports_enabled; now rewrite Hi).
    cbn [post_build_loop filter]. rewrite Hi, Hre.
    destruct (enabled info).
    + unfold execute_plugin, get_plugin.
      rewrite (dict_get_member _ plugins (NAME p) p Hnd Hp).
      assert (Hset : forall b, dict_set results (NAME p) b
                               = results ++ [(NAME p, b)])
        by (intros b; apply dict_set_fresh; apply Hfresh; now left).
      assert (Hfresh' : forall b q, In q rest ->
                ~ In (NAME q) (map fst (results ++ [(NAME p, b)]))).
      { intros b q Hq. rewrite map_app, in_app_iff. cbn.
        intros [H|[H|[]]].
        - apply (Hfresh q); [now right|exact H].
        - apply Hni. rewrite H. now apply in_map. }
      cbn [map].
      destruct (execute p context) as [b|e]; cbn [reported];
        rewrite Hset, IH by auto; rewrite <- !app_assoc; reflexivity.
    + apply IH; auto. intros q Hq. apply Hfresh. now right.
Qed.

End Registry.

(** X14. Registering a plugin and asking for its name gives the plugin
    back, also when the name was taken before; asking for any other
    name gives what it gave before. *)
Theorem get_after_register :
  forall (Context : Type) (plugins : Registry Context) (p : Plugin Context),
    get_plugin (register plugins p) (NAME p) = Some p
    /\ (forall n, n <> NAME p ->
                  get_plugin (register plugins p) n = get_plugin plugins n).
Proof.
  intros Context plugins p. unfold get_plugin, register. split.
  - apply dict_get_set_same.
  - intros n Hn. now apply dict_get_set_other.
Qed.

(** X15. Registering under a name that is taken replaces the plugin in
    place: the names and their order stay.  Registering under a new
    name adds it at the end. *)
Theorem register_last_wins :
  forall (Context : Type) (plugins : Registry Context) (p : Plugin Context),
    (In (NAME p) (names plugins) ->
     names (register plugins p) = names plugins)
    /\ (~ In (NAME p) (names plugins) ->
        register plugins p = plugins ++ [(NAME p, p)]).
Proof.
  intros Context plugins p. unfold names, register. split.
  - apply keys_set_in.
  - apply dict_set_fresh.
Qed.

Lemma register_last_wins_witness :
  names (register (register [] thrower) thrower) = names (register [] thrower)
  /\ register (register [] thrower) succeeder
     = register [] thrower ++ [(NAME succeeder, succeeder)].
Proof.
  split.
  - refine (proj1 (register_last_wins unit (register [] thrower) thrower) _).
    cbn. auto.
  - refine (proj2 (register_last_wins unit (register [] thrower) succeeder) _).
    cbn. intros [H|[]]. discriminate.
Defined.

(** X16. Discovery keeps the registry in order: starting from one in
    which every plugin sits under its own name and no name occurs
    twice, loading any directory gives such a registry again; so does
    reloading, from any registry. *)
Theorem discovery_keeps_registry_well_formed :
  forall (Context : Type) (plugins : Registry Context) directory,
    (well_formed plugins -> well_formed (_load_plugins plugins directory))
    /\ well_formed (reload_plugins plugins directory).
Proof.
  intros Context plugins directory.
  assert (H : forall ps : Registry Context,
             well_formed ps -> well_formed (_load_plugins ps directory)).
  { intros ps Hw. destruct directory as [files|]; cbn; [|exact Hw].
    now apply load_files_well_formed. }
  split; [apply H|]. unfold reload_plugins. apply H.
  split; constructor.
Qed.

Lemma discovery_keeps_registry_well_formed_witness :
  well_formed (_load_plugins (register [] thrower)
                 (Some [zip_file; private_file; broken_file])).
Proof.
  refine (proj1 (discovery_keeps_registry_well_formed unit
                   (register [] thrower)
                   (Some [zip_file; private_file; broken_file])) _).
  split; cbn; repeat constructor; auto.
Defined.

(** X17. A file that discovery passes over (its name starts with an
    underscore, it has no loader, or running it raises) changes nothing
    for the files before and after it: the registry is the one loaded
    from the directory without that file. *)
Theorem skipped_file_is_isolated :
  forall (Context : Type) (plugins : Registry Context) files1 file files2,
    contributes_nothing file ->
    _load_plugins plugins (Some (files1 ++ file :: files2))
    = _load_plugins plugins (Some (files1 ++ files2)).
Proof.
  intros Context plugins files1 file files2 Hskip. cbn [_load_plugins].
  rewrite !load_files_app. cbn [load_files]. unfold _load_plugin_file.
  destruct Hskip as [H|[H|[e H]]]; rewrite H; cbn [negb bind];
    repeat match goal with
      | |- context [if ?b then _ else _] => destruct b
      end; reflexivity.
Qed.

Lemma skipped_file_is_isolated_witness :
  _load_plugins [] (Some ([private_file] ++ broken_file :: [zip_file]))
  = _load_plugins [] (Some ([private_file] ++ [zip_file])).
Proof.
  refine (skipped_file_is_isolated unit [] [private_file] broken_file
            [zip_file] _).
  right; right. eexists. reflexivity.
Defined.

(** X18. After a reload, every name in the registry is the name of an
    instance made from a file now in the directory; nothing of the
    registry before survives.  When the directory does not exist the
    registry is empty. *)
Theorem reload_leaves_nothing_stale :
  forall (Context : Type) (plugins : Registry Context) files n,
    (In n (names (reload_plugins plugins (Some files))) ->
     exists p, instance_of files p /\ NAME p = n)
    /\ reload_plugins plugins None = [].
Proof.
  intros Context plugins files n. split; [|reflexivity].
  unfold reload_plugins. cbn [_load_plugins]. intros H.
  destruct (names_load_files Context files [] n H) as [[]|Hp]. exact Hp.
Qed.

Lemma reload_leaves_nothing_stale_witness :
  exists p, instance_of [zip_file; private_file; broken_file] p
            /\ NAME p = "third".
Proof.
  refine (proj1 (reload_leaves_nothing_stale unit (register [] thrower)
                   [zip_file; private_file; broken_file] "third") _).
  cbn. auto.
Defined.

(** X19. On a registry in which every plugin sits under its own name
    and no name occurs twice, and as long as no [get_info] raises,
    [execute_post_build_plugins] calls every instance of
    [PostBuildPlugin] that reports itself enabled exactly once, in
    registration order, and no other plugin; the map has one entry per
    plugin called, in that order: what the plugin returned, or [False]
    when it raised. *)
Theorem post_build_run_complete :
  forall (Context : Type) (plugins : Registry Context) context calls,
    well_formed plugins ->
    Forall (fun p => exists info, get_info p = Ok info)
      (get_post_build_plugins plugins) ->
    execute_post_build_plugins plugins context calls
    = (Ok (map (fun p => (NAME p, reported (execute p context)))
             (filter reports_enabled (get_post_build_plugins plugins))),
       calls ++ map NAME
                  (filter reports_enabled (get_post_build_plugins plugins))).
Proof.
  intros Context plugins context calls [Hnd Hk] Hinfo.
  unfold execute_post_build_plugins.
  assert (Hn : map NAME (dict_values plugins) = names plugins).
  { unfold dict_values, names. rewrite map_map. apply map_ext_in.
    intros kv Hin. rewrite Forall_forall in Hk. symmetry. now apply Hk. }
  rewrite post_build_loop_spec.
  - reflexivity.
  - exact Hnd.
  - apply Forall_forall. intros p Hp.
    unfold get_post_build_plugins in Hp. apply filter_In in Hp as [Hp _].
    unfold dict_values in Hp. apply in_map_iff in Hp as [[k q] [Hq Hin]].
    cbn in Hq. subst q. rewrite Forall_forall in Hk.
    specialize (Hk _ Hin). cbn in Hk. now subst k.
  - unfold get_post_build_plugins. apply nodup_map_filter. now rewrite Hn.
  - exact Hinfo.
  - intros p _ [].
Qed.

Lemma post_build_run_complete_witness :
  execute_post_build_plugins
    (register (register (register [] succeeder) switched_off) thrower) tt []
  = (Ok [("third", true); ("second", false)], ["third"; "second"]).
Proof.
  refine (post_build_run_complete unit
            (register (register (register [] succeeder) switched_off) thrower)
            tt [] _ _).
  - split; cbn; repeat constructor; cbn; intuition discriminate.
  - cbn. repeat constructor; eexists; reflexivity.
Defined.

End PluginExtras.

(* ------------------------------------------------------------------ *)
(** ** Further properties of the environment worker and manager *)

Module VenvExtras.
Import Venv VenvOps.

Lemma finishes_app sigs sigs' :
  finishes (sigs ++ sigs') = finishes sigs ++ finishes sigs'.
Proof.
  induction sigs as [|s r IH]; [reflexivity|].
  destruct s; cbn; now rewrite IH.
Qed.

Lemma finishes_lines args : finishes (map output_line args) = [].
Proof. induction args; auto. Qed.

Lemma venv_callback_quiet : Shell.never_raises output_callback.
Proof. intros a st. reflexivity. Qed.

Lemma deliver_lines args :
  forall st,
    Shell.deliver output_callback args st
    = {| popen_calls := popen_calls st;
         user := {| operation := operation (user st);
                    venv_path := venv_path (user st);
                    requirements_path := requirements_path (user st);
                    emitted := emitted (user st) ++ map output_line args |} |}.
Proof.
  induction args as [|a r IH]; intros st.
  - cbn. rewrite app_nil_r. destruct st as [pc [o v rq em]]; reflexivity.
  - unfold Shell.deliver in *. cbn [fold_left]. rewrite IH. cbn.
    now rewrite <- app_assoc.
Qed.

(** The runner under the worker's consumer, from any state. *)
Lemma stream_lines host cmd st :
  exists r lines,
    Shell.run_command_stream host cmd output_callback None st
    = (Ok r,
       {| popen_calls := popen_calls st ++ [cmd];
          user := {| operation := operation (user st);
                     venv_path := venv_path (user st);
                     requirements_path := requirements_path (user st);
                     emitted := emitted (user st) ++ map output_line lines |}
       |})
    /\ match Popen host cmd None with
       | Ok process =>
           r = Shell.outcome process
           /\ lines = map PyStr.rstrip (Shell.lines_of (pipe_text process))
       | Raise e =>
           r = {| Shell.return_code := -1; Shell.stdout := "";
                  Shell.stderr := str_exn e; Shell.success := false |}
           /\ lines = []
       end.
Proof.
  destruct (Popen host cmd None) as [process|e] eqn:HP.
  - rewrite (ShellFacts.run_command_stream_quiet _ _ venv_callback_quiet
               host cmd None st _ HP).
    rewrite deliver_lines. cbn [Shell.noting popen_calls user].
    eexists; eexists; split; [reflexivity|]. split; reflexivity.
  - rewrite (ShellFacts.run_command_stream_spawn_failure _ output_callback
               host cmd None st e HP).
    exists {| Shell.return_code := -1; Shell.stdout := "";
              Shell.stderr := str_exn e; Shell.success := false |}, [].
    cbn [map Shell.noting]. rewrite app_nil_r.
    destruct st as [pc [o v rq em]]. split; [reflexivity|]. split; reflexivity.
Qed.

Ltac run_stream :=
  match goal with
  | |- context [Shell.run_command_stream ?h ?c output_callback None ?st] =>
      let r := fresh "r" in
      let lines := fresh "lines" in
      let Hrun := fresh "Hrun" in
      let Hshape := fresh "Hshape" in
      destruct (stream_lines h c st) as [r [lines [Hrun Hshape]]];
      rewrite Hrun;
      cbn [popen_calls user operation venv_path requirements_path emitted
           fst snd] in *
  end.

(** The signals of the create operation. *)
Lemma create_trace host disk root rp :
  exists r lines,
    signals_of host disk "create" root rp
    = [progress "Creating virtual environment...";
       output_line ("Creating venv at: " ++ disk_str disk root)]
      ++ map output_line lines
      ++ [if Shell.success r
          then operation_finished true "Virtual environment created"
          else operation_finished false ("Failed: " ++ Shell.stderr r)]
    /\ match Popen host [sys_executable host; "-m"; "venv";
                         disk_str disk root] None with
       | Ok process =>
           r = Shell.outcome process
           /\ lines = map PyStr.rstrip (Shell.lines_of (pipe_text process))
       | Raise e =>
           r = {| Shell.return_code := -1; Shell.stdout := "";
                  Shell.stderr := str_exn e; Shell.success := false |}
           /\ lines = []
       end.
Proof.
  unfold signals_of, run, bindM, get_user.
  cbn [initial_state user init operation fst snd].
  change (String.eqb "create" "create") with true. cbv iota.
  unfold _create_venv, try_exceptM, bindM, get_user.
  cbn [emit modify_user user popen_calls operation venv_path
       requirements_path emitted app fst snd].
  run_stream. exists r, lines. split; [|exact Hshape].
  destruct (Shell.success r);
    cbn [emit modify_user user popen_calls emitted snd];
    rewrite <- app_assoc; reflexivity.
Qed.

(** The signals of the install operation once manifest and installer
    are there. *)
Lemma install_trace host disk root requirements :
  disk_exists disk requirements = Ok true ->
  disk_exists disk (Venv.pip_path host root) = Ok true ->
  exists r lines,
    signals_of host disk "install" root (Some requirements)
    = [progress "Installing requirements..."]
      ++ map output_line lines
      ++ [if Shell.success r
          then operation_finished true "Requirements installed"
          else operation_finished false ("Failed: " ++ Shell.stderr r)]
    /\ match Popen host [disk_str disk (Venv.pip_path host root);
                         "install"; "-r"; disk_str disk requirements]
               None with
       | Ok process =>
           r = Shell.outcome process
           /\ lines = map PyStr.rstrip (Shell.lines_of (pipe_text process))
       | Raise e =>
           r = {| Shell.return_code := -1; Shell.stdout := "";
                  Shell.stderr := str_exn e; Shell.success := false |}
           /\ lines = []
       end.
Proof.
  intros Hreq Hpip.
  unfold signals_of, run, bindM, get_user.
  cbn [initial_state user init operation fst snd].
  change (String.eqb "install" "create") with false.
  change (String.eqb "install" "install") with true. cbv iota.
  unfold _install_requirements, try_exceptM, bindM, get_user, ask.
  cbn [initial_state user init requirements_path manifest_missing].
  rewrite Hreq. cbn [bind negb].
  cbn [emit modify_user user popen_calls operation venv_path
       requirements_path emitted app fst snd].
  cbv zeta. cbn [venv_path init]. rewrite Hpip. cbn [negb str_optional].
  run_stream. exists r, lines. split; [|exact Hshape].
  destruct (Shell.success r);
    cbn [emit modify_user user popen_calls emitted snd];
    rewrite <- app_assoc; reflexivity.
Qed.

Ltac enter op :=
  unfold signals_of, run, bindM, get_user;
  cbn [initial_state user init operation fst snd];
  repeat match goal with
    | |- context [String.eqb op ?s] =>
        let b := eval vm_compute in (String.eqb op s) in
        change (String.eqb op s) with b
    end;
  cbv iota.

(** X20. Each of the three operations of the worker ends with exactly
    one [operation_finished] signal, emitted last, whatever the file
    system and the process do, a query of the disk that raises
    included; a worker made for any other operation emits nothing at
    all. *)
Theorem operation_finishes_once :
  forall host disk op root rp,
    (op = "create" \/ op = "install" \/ op = "delete" ->
     exists before ok message,
       signals_of host disk op root rp
       = before ++ [operation_finished ok message]
       /\ finishes before = [])
    /\ (op <> "create" -> op <> "install" -> op <> "delete" ->
        signals_of host disk op root rp = []).
Proof.
  intros host disk op root rp. split.
  - intros [H|[H|H]]; subst op.
    + destruct (create_trace host disk root rp) as [r [lines [H _]]].
      rewrite H. destruct (Shell.success r); eexists; eexists; eexists;
        (split; [rewrite app_assoc; reflexivity|]);
        rewrite finishes_app, finishes_lines; reflexivity.
    + destruct (manifest_missing disk rp) as [[|]|e] eqn:Hm.
      * exists [], false, "Requirements file not found". split; [|reflexivity].
        enter "install".
        unfold _install_requirements, try_exceptM, bindM, get_user, ask.
        cbn [initial_state user init requirements_path]. rewrite Hm.
        reflexivity.
      * destruct rp as [requirements|]; [|discriminate].
        cbn [manifest_missing] in Hm.
        destruct (disk_exists disk requirements) as [[|]|e] eqn:Hreq;
          try discriminate.
        destruct (disk_exists disk (Venv.pip_path host root))
          as [[|]|e] eqn:Hpip.
        -- destruct (install_trace host disk root requirements Hreq Hpip)
             as [r [lines [H _]]].
           rewrite H. destruct (Shell.success r); eexists; eexists; eexists;
             (split; [rewrite app_assoc; reflexivity|]);
             rewrite finishes_app, finishes_lines; reflexivity.
        -- exists [progress "Installing requirements..."], false,
             "Pip not found in virtual environment". split; [|reflexivity].
           enter "install".
           unfold _install_requirements, try_exceptM, bindM, get_user, ask.
           cbn [initial_state user init requirements_path manifest_missing].
           rewrite Hreq. cbn [bind negb].
           cbn [emit modify_user user popen_calls operation venv_path
                requirements_path emitted app fst snd].
           cbv zeta. cbn [venv_path init]. rewrite Hpip. reflexivity.
        -- exists [progress "Installing requirements..."], false, (str_exn e).
           split; [|reflexivity].
           enter "install".
           unfold _install_requirements, try_exceptM, bindM, get_user, ask.
           cbn [initial_state user init requirements_path manifest_missing].
           rewrite Hreq. cbn [bind negb].
           cbn [emit modify_user user popen_calls operation venv_path
                requirements_path emitted app fst snd].
           cbv zeta. cbn [venv_path init]. rewrite Hpip. reflexivity.
      * exists [], false, (str_exn e). split; [|reflexivity].
        enter "install".
        unfold _install_requirements, try_exceptM, bindM, get_user, ask.
        cbn [initial_state user init requirements_path]. rewrite Hm.
        reflexivity.
    + enter "delete".
      unfold _delete_venv, try_exceptM, bindM, get_user, ask.
      cbn [emit modify_user user popen_calls operation venv_path
           requirements_path emitted app fst snd initial_state init].
      destruct (disk_exists disk root) as [[|]|e].
      * destruct (disk_rmtree disk root) as [[]|e];
          exists [progress "Deleting virtual environment..."];
          eexists; eexists; split; reflexivity.
      * exists [progress "Deleting virtual environment..."].
        eexists; eexists; split; reflexivity.
      * exists [progress "Deleting virtual environment..."].
        eexists; eexists; split; reflexivity.
  - intros H1 H2 H3.
    apply String.eqb_neq in H1, H2, H3.
    unfold signals_of, run, bindM, get_user.
    cbn [initial_state user init operation fst snd].
    rewrite H1, H2, H3. reflexivity.
Qed.

Lemma operation_finishes_once_witness :
  (exists before ok message,
      signals_of one_env_host locked_disk "delete"
        (mkEnvPath "envs" ["py311"]) None
      = before ++ [operation_finished ok message]
      /\ finishes before = [])
  /\ signals_of one_env_host one_env_disk "upgrade"
       (mkEnvPath "envs" ["py311"]) None = [].
Proof.
  split.
  - refine (proj1 (operation_finishes_once one_env_host locked_disk
                     "delete" (mkEnvPath "envs" ["py311"]) None) _).
    right; right; reflexivity.
  - refine (proj2 (operation_finishes_once one_env_host one_env_disk
                     "upgrade" (mkEnvPath "envs" ["py311"]) None) _ _ _);
      discriminate.
Defined.

(** X21. The message of a failed create or install.  When the process
    starts, its output is read to the end without an error and it exits
    with a code other than 0, the message is exactly "Failed: " with
    nothing after it, since the runner's [stderr] is then empty.  When
    the process starts and a read of its output raises, or when the
    process cannot be started, the text of the exception follows
    "Failed: ".  For install this is said of a run whose manifest and
    installer (at [Scripts/pip.exe] or [bin/pip] under the root) the
    disk says exist. *)
Theorem venv_failure_message :
  forall host disk root rp,
    match Popen host [sys_executable host; "-m"; "venv";
                      disk_str disk root] None with
    | Ok process =>
        match pipe_fault process with
        | None =>
            returncode process <> 0%Z ->
            finishes (signals_of host disk "create" root rp)
            = [(false, "Failed: ")]
        | Some e =>
            finishes (signals_of host disk "create" root rp)
            = [(false, ("Failed: " ++ str_exn e)%string)]
        end
    | Raise e =>
        finishes (signals_of host disk "create" root rp)
        = [(false, ("Failed: " ++ str_exn e)%string)]
    end
    /\ (forall requirements,
          disk_exists disk requirements = Ok true ->
          disk_exists disk
            (if is_win32 (sys_platform host)
             then joinpath (joinpath root "Scripts") "pip.exe"
             else joinpath (joinpath root "bin") "pip")
          = Ok true ->
          match Popen host
                  [disk_str disk
                     (if is_win32 (sys_platform host)
                      then joinpath (joinpath root "Scripts") "pip.exe"
                      else joinpath (joinpath root "bin") "pip");
                   "install"; "-r"; disk_str disk requirements]
                  None with
          | Ok process =>
              match pipe_fault process with
              | None =>
                  returncode process <> 0%Z ->
                  finishes (signals_of host disk "install" root
                              (Some requirements))
                  = [(false, "Failed: ")]
              | Some e =>
                  finishes (signals_of host disk "install" root
                              (Some requirements))
                  = [(false, ("Failed: " ++ str_exn e)%string)]
              end
          | Raise e =>
              finishes (signals_of host disk "install" root
                          (Some requirements))
              = [(false, ("Failed: " ++ str_exn e)%string)]
          end).
Proof.
  intros host disk root rp. split.
  - destruct (create_trace host disk root rp) as [r [lines [H Hs]]].
    destruct (Popen host [sys_executable host; "-m"; "venv";
                          disk_str disk root] None) as [process|e].
    + destruct Hs as [-> _]. rewrite H. unfold Shell.outcome.
      destruct (pipe_fault process) as [e|].
      * rewrite !finishes_app, finishes_lines. reflexivity.
      * intros Hrc. cbn [Shell.success Shell.stderr].
        destruct (Z.eqb_spec (returncode process) 0); [contradiction|].
        rewrite !finishes_app, finishes_lines. reflexivity.
    + destruct Hs as [-> _]. rewrite H.
      rewrite !finishes_app, finishes_lines. reflexivity.
  - intros requirements Hreq Hpip.
    change (if is_win32 (sys_platform host)
            then joinpath (joinpath root "Scripts") "pip.exe"
            else joinpath (joinpath root "bin") "pip")
      with (Venv.pip_path host root) in *.
    destruct (install_trace host disk root requirements Hreq Hpip)
      as [r [lines [H Hs]]].
    destruct (Popen host [disk_str disk (Venv.pip_path host root);
                          "install"; "-r"; disk_str disk requirements]
                None) as [process|e].
    + destruct Hs as [-> _]. rewrite H. unfold Shell.outcome.
      destruct (pipe_fault process) as [e|].
      * rewrite !finishes_app, finishes_lines. reflexivity.
      * intros Hrc. cbn [Shell.success Shell.stderr].
        destruct (Z.eqb_spec (returncode process) 0); [contradiction|].
        rewrite !finishes_app, finishes_lines. reflexivity.
    + destruct Hs as [-> _]. rewrite H.
      rewrite !finishes_app, finishes_lines. reflexivity.
Qed.

Lemma venv_failure_message_witness :
  finishes (signals_of one_env_host one_env_disk "create"
              (mkEnvPath "envs" ["new"]) None)
  = [(false, "Failed: ")]
  /\ finishes (signals_of undecodable_host full_disk "install"
                 (mkEnvPath "envs" ["py311"])
                 (Some (mkEnvPath "req.txt" [])))
     = [(false, "Failed: 'charmap' codec can't decode byte 0x81")].
Proof.
  split.
  - refine (proj1 (venv_failure_message one_env_host one_env_disk
                     (mkEnvPath "envs" ["new"]) None) _).
    discriminate.
  - exact (proj2 (venv_failure_message undecodable_host full_disk
                    (mkEnvPath "envs" ["py311"]) None)
             (mkEnvPath "req.txt" []) eq_refl eq_refl).
Defined.

(** What [both_exist] answers, query by query. *)
Lemma both_exist_spec disk a b :
  match both_exist disk a b with
  | Ok there =>
      there = true
      <-> disk_exists disk a = Ok true /\ disk_exists disk b = Ok true
  | Raise e =>
      disk_exists disk a = Raise e
      \/ disk_exists disk a = Ok true /\ disk_exists disk b = Raise e
  end.
Proof.
  unfold both_exist, bind.
  destruct (disk_exists disk a) as [[|]|e].
  - destruct (disk_exists disk b) as [[|]|e'].
    + tauto.
    + split; [discriminate|]. intros [_ H]. discriminate.
    + right. tauto.
  - split; [discriminate|]. intros [H _]. discriminate.
  - now left.
Qed.

Lemma get_venv_info_spec host disk base_path name :
  match get_venv_info host disk base_path name with
  | Ok info =>
      path info = joinpath base_path name
      /\ python_path info = interpreter_path host (joinpath base_path name)
      /\ pip_path info = Venv.pip_path host (joinpath base_path name)
      /\ (exists_ info = true
          <-> disk_exists disk (joinpath base_path name) = Ok true
              /\ disk_exists disk
                   (interpreter_path host (joinpath base_path name))
                 = Ok true)
      /\ (exists_ info = false -> python_version info = "")
      /\ PyStr.strip (python_version info) = python_version info
  | Raise e =>
      disk_exists disk (joinpath base_path name) = Raise e
      \/ disk_exists disk (joinpath base_path name) = Ok true
         /\ disk_exists disk
              (interpreter_path host (joinpath base_path name))
            = Raise e
  end.
Proof.
  unfold get_venv_info. cbv zeta.
  pose proof (both_exist_spec disk (joinpath base_path name)
                (interpreter_path host (joinpath base_path name))) as Hb.
  destruct (both_exist disk (joinpath base_path name)
              (interpreter_path host (joinpath base_path name)))
    as [[|]|e]; cbn [bind].
  - unfold Shell.run_command, try_except, bind.
    destruct (subprocess_run host _ None None) as [done|e].
    + cbn [path python_path pip_path exists_ python_version Shell.success
           Shell.stdout].
      repeat split; try apply Hb; try reflexivity; try discriminate.
      destruct (Z.eqb (cp_returncode done) 0);
        [apply CommandExtras.strip_idempotent|reflexivity].
    + destruct e;
        cbn [path python_path pip_path exists_ python_version
             Shell.success];
        repeat split; try apply Hb; try reflexivity; try discriminate.
  - cbn [path python_path pip_path exists_ python_version].
    repeat split; try apply Hb; try reflexivity; try discriminate.
  - exact Hb.
Qed.



(** The environments [list_venvs] collects from the listed names. *)
Lemma list_entries_spec host disk base_path entries :
  match list_entries host disk base_path entries with
  | Ok venvs =>
      length venvs <= length entries
      /\ Forall
           (fun info =>
              exists name,
                In name entries
                /\ disk_is_dir disk (joinpath base_path name) = Ok true
                /\ python_path info
                   = interpreter_path host (joinpath base_path name)
                /\ (exists_ info = true ->
                    disk_exists disk (python_path info) = Ok true))
           venvs
  | Raise e =>
      exists p, disk_exists disk p = Raise e \/ disk_is_dir disk p = Raise e
  end.
Proof.
  induction entries as [|name rest IH].
  - cbn. split; [lia|constructor].
  - cbn [list_entries]. unfold bind at 1.
    destruct (disk_is_dir disk (joinpath base_path name))
      as [[|]|e] eqn:Hdir.
    + pose proof (get_venv_info_spec host disk base_path name) as Hi.
      destruct (get_venv_info host disk base_path name) as [info|e];
        cbn [bind].
      * destruct (list_entries host disk base_path rest) as [venvs|e];
          cbn [bind].
        -- destruct IH as [Hlen Hall]. split; [cbn; lia|].
           constructor.
           ++ destruct Hi as [_ [Hpy [_ [Hex _]]]].
              exists name. split; [now left|]. split; [exact Hdir|].
              split; [exact Hpy|]. intros Ht. rewrite Hpy.
              now apply Hex.
           ++ eapply Forall_impl; [|exact Hall].
              intros info' [n [Hin Hrest]]. exists n.
              split; [now right|exact Hrest].
        -- exact IH.
      * destruct Hi as [Hi|[_ Hi]]; eexists; left; exact Hi.
    + destruct (list_entries host disk base_path rest) as [venvs|e].
      * destruct IH as [Hlen Hall]. split; [cbn; lia|].
        eapply Forall_impl; [|exact Hall].
        intros info' [n [Hin Hrest]]. exists n.
        split; [now right|exact Hrest].
      * exact IH.
    + eexists. right. exact Hdir.
Qed.

(** X23. The list of interpreters raises only when a query of the disk
    raises (whether a path exists, whether it is a directory, or the
    listing of the base directory), with that exception.  When it
    returns, the list starts with the host's own interpreter; nothing
    follows when the base directory does not exist; otherwise what
    follows is, for names the listing gave and in at most one entry per
    listed name, the text of the interpreter path [Scripts/python.exe]
    or [bin/python] under a subdirectory of that name, each of which
    the disk said exists. *)
Theorem interpreters_are_usable :
  forall host disk base_path,
    match get_python_interpreters host disk base_path with
    | Ok interpreters =>
        exists others,
          interpreters = sys_executable host :: others
          /\ (disk_exists disk base_path = Ok false -> others = [])
          /\ (forall entries,
                disk_iterdir disk base_path = Ok entries ->
                length others <= length entries
                /\ Forall
                     (fun text =>
                        exists name python,
                          In name entries
                          /\ python
                             = (if is_win32 (sys_platform host)
                                then joinpath
                                       (joinpath (joinpath base_path name)
                                          "Scripts") "python.exe"
                                else joinpath
                                       (joinpath (joinpath base_path name)
                                          "bin") "python")
                          /\ text = disk_str disk python
                          /\ disk_is_dir disk (joinpath base_path name)
                             = Ok true
                          /\ disk_exists disk python = Ok true)
                     others)
    | Raise e =>
        exists p,
          disk_exists disk p = Raise e
          \/ disk_is_dir disk p = Raise e
          \/ disk_iterdir disk p = Raise e
    end.
Proof.
  intros host disk base_path.
  unfold get_python_interpreters, list_venvs. unfold bind at 2.
  destruct (disk_exists disk base_path) as [[|]|e] eqn:Hbase.
  - unfold bind at 2.
    destruct (disk_iterdir disk base_path) as [entries|e] eqn:Hiter.
    + pose proof (list_entries_spec host disk base_path entries) as Hl.
      destruct (list_entries host disk base_path entries) as [venvs|e];
        cbn [bind].
      * destruct Hl as [Hlen Hall]. eexists. split; [reflexivity|].
        split; [discriminate|].
        intros entries' Heq. injection Heq as <-. split.
        -- rewrite length_map.
           pose proof (filter_length_le exists_ venvs). lia.
        -- apply Forall_forall. intros text Hin.
           apply in_map_iff in Hin as [info [<- Hin]].
           apply filter_In in Hin as [Hin Hex].
           rewrite Forall_forall in Hall.
           destruct (Hall info Hin) as [name [Hname [Hdir [Hpy Hthere]]]].
           exists name, (python_path info).
           split; [exact Hname|]. split; [exact Hpy|].
           split; [reflexivity|]. split; [exact Hdir|]. now apply Hthere.
      * destruct Hl as [p [Hl|Hl]]; exists p; tauto.
    + cbn [bind]. exists base_path. right; right. exact Hiter.
  - cbn [bind map filter]. exists []. split; [reflexivity|].
    split; [reflexivity|]. intros entries _. split; [cbn; lia|constructor].
  - cbn [bind]. exists base_path. left. exact Hbase.
Qed.

Lemma interpreters_are_usable_witness :
  get_python_interpreters one_env_host one_env_disk (mkEnvPath "envs" [])
  = Ok ["/usr/bin/python3"; "envs/py311/bin/python"]
  /\ (exists p,
        disk_exists locked_disk p = Raise (OSError "Permission denied")
        \/ disk_is_dir locked_disk p = Raise (OSError "Permission denied")
        \/ disk_iterdir locked_disk p = Raise (OSError "Permission denied")).
Proof.
  split; [reflexivity|].
  exact (interpreters_are_usable one_env_host locked_disk
           (mkEnvPath "envs" [])).
Defined.

End VenvExtras.

(* ------------------------------------------------------------------ *)
(** ** Properties of the validators and of the recent-projects list *)

Module ValidatorExtras.
Import Validators.

Lemma replace_keeps_clean c d s :
  c <> "_"%char -> PyStr.mem c s = false ->
  PyStr.mem c (PyStr.replace d "_" s) = false.
Proof.
  intros Hc. induction s as [|x r IH]; [reflexivity|].
  cbn [PyStr.mem PyStr.replace]. intros H.
  apply orb_false_iff in H as [Hx Hr].
  destruct (Ascii.eqb x d).
  - cbn [String.append PyStr.mem].
    apply not_eq_sym in Hc. apply Ascii.eqb_neq in Hc.
    now rewrite Hc, IH.
  - cbn [PyStr.mem]. now rewrite Hx, IH.
Qed.

Lemma fold_replace_keeps_clean c chars :
  forall s,
    c <> "_"%char -> PyStr.mem c s = false ->
    PyStr.mem c (fold_left (fun name char => PyStr.replace char "_" name)
                   chars s) = false.
Proof.
  induction chars as [|d r IH]; intros s Hc H; [exact H|].
  cbn [fold_left]. apply IH; [exact Hc|]. now apply replace_keeps_clean.
Qed.

Lemma fold_replace_cleans c chars :
  forall s,
    c <> "_"%char -> In c chars ->
    PyStr.mem c (fold_left (fun name char => PyStr.replace char "_" name)
                   chars s) = false.
Proof.
  induction chars as [|d r IH]; intros s Hc Hin; [destruct Hin|].
  cbn [fold_left]. destruct Hin as [->|Hin].
  - apply fold_replace_keeps_clean; [exact Hc|].
    apply CommandExtras.replace_removes. cbn [PyStr.mem].
    apply not_eq_sym in Hc. apply Ascii.eqb_neq in Hc. now rewrite Hc.
  - now apply IH.
Qed.

Lemma lstrip_chars_clean chars c s :
  PyStr.mem c s = false -> PyStr.mem c (lstrip_chars chars s) = false.
Proof.
  induction s as [|x r IH]; [auto|]. cbn [lstrip_chars PyStr.mem].
  intros H. destruct (chars x); [|exact H].
  apply orb_false_iff in H as [_ Hr]. auto.
Qed.

Lemma rstrip_chars_clean chars c s :
  PyStr.mem c s = false -> PyStr.mem c (rstrip_chars chars s) = false.
Proof.
  induction s as [|x r IH]; [auto|]. cbn [rstrip_chars PyStr.mem].
  intros H. apply orb_false_iff in H as [Hx Hr]. specialize (IH Hr).
  destruct (rstrip_chars chars r) as [|y r'].
  - destruct (chars x); [reflexivity|]. cbn. now rewrite Hx.
  - cbn [PyStr.mem] in *. now rewrite Hx, IH.
Qed.

Lemma substring_clean c n :
  forall s m, PyStr.mem c s = false ->
              PyStr.mem c (String.substring n m s) = false.
Proof.
  induction n as [|n IHn]; intros s m H.
  - revert s H. induction m as [|m IHm]; intros s H.
    + destruct s; reflexivity.
    + destruct s as [|x r]; [reflexivity|]. cbn [String.substring PyStr.mem].
      cbn [PyStr.mem] in H. apply orb_false_iff in H as [Hx Hr].
      now rewrite Hx, IHm.
  - destruct s as [|x r]; [reflexivity|]. cbn [String.substring].
    cbn [PyStr.mem] in H. apply orb_false_iff in H as [_ Hr]. auto.
Qed.

Lemma substring_length m :
  forall s, String.length (String.substring 0 m s) <= m.
Proof.
  induction m as [|m IH]; intros s.
  - destruct s; cbn; lia.
  - destruct s as [|x r]; cbn; [lia|]. specialize (IH r). lia.
Qed.

Lemma find_none_clean name :
  (forall c, In c invalid_chars -> PyStr.mem c name = false) ->
  find (contains name) invalid_chars = None.
Proof.
  intros H. induction invalid_chars as [|c r IH]; [reflexivity|].
  cbn [find]. unfold contains at 1. rewrite (H c) by (now left).
  apply IH. intros d Hd. apply H. now right.
Qed.

(** X24. Whatever the input, the name [sanitize_filename] returns is
    accepted by [validate_app_name]: it is not empty, holds none of the
    invalid characters and has at most 100 characters. *)
Theorem sanitized_name_is_valid :
  forall name,
    validate_app_name (sanitize_filename name)
    = (true, "Valid application name").
Proof.
  intros name.
  assert (Hclean : forall c, In c invalid_chars ->
                             PyStr.mem c (sanitize_filename name) = false).
  { intros c Hc. unfold sanitize_filename. cbv zeta.
    assert (Hu : c <> "_"%char).
    { intros ->. cbn in Hc. decompose [or] Hc; discriminate || contradiction. }
    set (s1 := fold_left _ invalid_chars name).
    assert (H1 : PyStr.mem c s1 = false)
      by (now apply fold_replace_cleans).
    assert (H2 : PyStr.mem c (strip_spaces_and_dots s1) = false)
      by (unfold strip_spaces_and_dots;
          now apply rstrip_chars_clean, lstrip_chars_clean).
    set (s3 := if (100 <? String.length (strip_spaces_and_dots s1))%nat
               then _ else _).
    assert (H3 : PyStr.mem c s3 = false).
    { subst s3. destruct (100 <? _)%nat; [now apply substring_clean|exact H2]. }
    destruct (PyStr.truthy s3); [exact H3|].
    cbn in Hc. decompose [or] Hc; subst; try reflexivity; contradiction. }
  assert (Hlen : String.length (sanitize_filename name) <= 100).
  { unfold sanitize_filename. cbv zeta.
    set (s2 := strip_spaces_and_dots _).
    destruct (100 <? String.length s2)%nat eqn:E.
    - pose proof (substring_length 100 s2).
      destruct (PyStr.truthy _); [assumption|cbn; lia].
    - apply Nat.ltb_ge in E.
      destruct (PyStr.truthy _); [assumption|cbn; lia]. }
  assert (Hne : PyStr.truthy (sanitize_filename name) = true).
  { unfold sanitize_filename. cbv zeta.
    match goal with
    | |- PyStr.truthy (if PyStr.truthy ?s then _ else _) = true =>
        destruct (PyStr.truthy s) eqn:E; [exact E|reflexivity]
    end. }
  unfold validate_app_name. rewrite Hne. cbn [negb].
  rewrite (find_none_clean _ Hclean).
  apply Nat.ltb_ge in Hlen. now rewrite Hlen.
Qed.

End ValidatorExtras.

Module RecentExtras.
Import RecentProjects.

Lemma remove_first_subset x l y :
  In y (remove_first x l) -> In y l.
Proof.
  induction l as [|z r IH]; cbn; [auto|].
  destruct (String.eqb z x); cbn; intuition.
Qed.

Lemma remove_first_nodup x l :
  NoDup l -> NoDup (remove_first x l) /\ ~ In x (remove_first x l).
Proof.
  induction 1 as [|z r Hni Hnd [IH1 IH2]]; cbn.
  - split; [constructor|auto].
  - destruct (String.eqb_spec z x) as [->|Hz].
    + auto.
    + split.
      * constructor; [|exact IH1]. intros Hin. apply Hni.
        now apply remove_first_subset in Hin.
      * cbn. intros [H|H]; auto.
Qed.

Lemma contains_false l x : contains l x = false -> ~ In x l.
Proof.
  unfold contains. intros H Hin.
  assert (existsb (String.eqb x) l = true).
  { apply existsb_exists. exists x. split; [exact Hin|apply String.eqb_refl]. }
  congruence.
Qed.

Lemma firstn_nodup (l : list string) n : NoDup l -> NoDup (firstn n l).
Proof.
  revert l. induction n as [|n IH]; intros l H; [constructor|].
  destruct l as [|x r]; [constructor|]. cbn.
  inversion H as [|? ? Hni Hr]; subst. constructor; [|auto].
  intros Hin. apply Hni. rewrite <- (firstn_skipn n r).
  apply in_or_app. now left.
Qed.

(** X25. Adding a project to the recent list puts it first, keeps the
    list at ten entries at most, and brings in nothing else that was
    not there; a list without repetitions stays without repetitions, so
    the project then occurs exactly once. *)
Theorem recent_projects_invariant :
  forall recent_projects path,
    hd_error (add_recent_project recent_projects path) = Some path
    /\ length (add_recent_project recent_projects path) <= MAX_RECENT_PROJECTS
    /\ (forall p, In p (add_recent_project recent_projects path) ->
                  p = path \/ In p recent_projects)
    /\ (NoDup recent_projects ->
        NoDup (add_recent_project recent_projects path)).
Proof.
  intros l path. unfold add_recent_project. cbv zeta.
  set (l1 := if contains l path then remove_first path l else l).
  assert (Hsub : forall p, In p l1 -> In p l).
  { subst l1. intros p. destruct (contains l path); [|auto].
    apply remove_first_subset. }
  split; [reflexivity|]. split; [apply firstn_le_length|]. split.
  - intros p Hin.
    assert (Hin' : In p (path :: l1)).
    { rewrite <- (firstn_skipn MAX_RECENT_PROJECTS (path :: l1)).
      apply in_or_app. now left. }
    destruct Hin' as [<-|Hin']; auto.
  - intros Hnd. apply firstn_nodup. subst l1.
    destruct (contains l path) eqn:E.
    + destruct (remove_first_nodup path l Hnd) as [H1 H2].
      constructor; assumption.
    + constructor; [now apply contains_false|exact Hnd].
Qed.

Lemma recent_projects_invariant_witness :
  NoDup (add_recent_project ["b.py"; "a.py"; "c.py"] "a.py").
Proof.
  refine (proj2 (proj2 (proj2 (recent_projects_invariant
                                  ["b.py"; "a.py"; "c.py"] "a.py"))) _).
  repeat constructor; cbn; intuition discriminate.
Defined.

End RecentExtras.
